(** * ecewo-fs: asynchronous file operations on top of libuv

    A shallow embedding of [ecewo-fs.c] / [ecewo-fs.h], and what holds of
    it: the bounds of the admission controller, the effect of the
    statistics calls, the bounded wait of [fs_cleanup], one callback per
    operation, the size ceiling, the error string, the order of the read
    chain, and a write followed by a read.

    - The process-wide [fs_state] registry is a record that the registry
      functions transform.
    - The operation engine (entry points and libuv completion handlers) is
      written in a small state monad over a [world]: the registry, the
      trace of externally visible calls (allocator, reactor, user
      callbacks, stderr), the allocator's outcomes and the reactor.
    - libuv and the file system behind it are external; they appear as the
      [Libuv] interface, with two instances: a scripted reactor that plays
      back arbitrary replies, and a small file store. *)

From Stdlib Require Import ZArith List String Bool Lia Strings.Byte.
From stdpp Require Import base gmap strings list.

Open Scope Z_scope.

(* ===================================================================== *)
(** * Machine integers *)
(* ===================================================================== *)

(** [int] is 32 bits wide, [uint64_t] and [size_t] 64 bits.  Arithmetic is
    on [Z] with the wrap-around written out. *)
Definition int_wrap (z : Z) : Z := (z + 2 ^ 31) mod 2 ^ 32 - 2 ^ 31.
Definition uint_wrap (z : Z) : Z := z mod 2 ^ 32.
Definition u64_wrap (z : Z) : Z := z mod 2 ^ 64.
Definition size_wrap (z : Z) : Z := z mod 2 ^ 64.

(** ecewo-fs.h, the defaults of the two configuration macros. *)
Definition ECEWO_FS_MAX_CONCURRENT_OPS : Z := 100.
Definition ECEWO_FS_MAX_FILE_SIZE : Z := 100 * 1024 * 1024.

(* ===================================================================== *)
(** * The registry: [fs_module_state_t] and [fs_stats_t] *)
(* ===================================================================== *)

Inductive uv_mutex_t : Type :=
| MutexNone        (* zero-initialised storage, uv_mutex_init not yet run *)
| MutexUnlocked
| MutexLocked
| MutexDestroyed.

Record fs_module_state_t : Type := mk_fs_state {
  active_operations : Z;      (* int *)
  peak_operations : Z;        (* int *)
  queued_operations : Z;      (* int *)
  total_reads : Z;            (* uint64_t *)
  total_writes : Z;           (* uint64_t *)
  total_bytes_read : Z;       (* uint64_t *)
  total_bytes_written : Z;    (* uint64_t *)
  failed_operations : Z;      (* int *)
  mutex : uv_mutex_t;
  initialized : bool
}.

(** [static fs_module_state_t fs_state = { 0 };] *)
Definition fs_state_zero : fs_module_state_t :=
  mk_fs_state 0 0 0 0 0 0 0 0 MutexNone false.

Record fs_stats_t : Type := mk_fs_stats {
  stats_active_operations : Z;
  stats_peak_operations : Z;
  stats_queued_operations : Z;
  stats_total_reads : Z;
  stats_total_writes : Z;
  stats_total_bytes_read : Z;
  stats_total_bytes_written : Z;
  stats_failed_operations : Z
}.

Definition with_active (v : Z) (s : fs_module_state_t) : fs_module_state_t :=
  mk_fs_state v (peak_operations s) (queued_operations s) (total_reads s)
    (total_writes s) (total_bytes_read s) (total_bytes_written s)
    (failed_operations s) (mutex s) (initialized s).

Definition with_peak (v : Z) (s : fs_module_state_t) : fs_module_state_t :=
  mk_fs_state (active_operations s) v (queued_operations s) (total_reads s)
    (total_writes s) (total_bytes_read s) (total_bytes_written s)
    (failed_operations s) (mutex s) (initialized s).

Definition with_total_reads (v : Z) (s : fs_module_state_t) : fs_module_state_t :=
  mk_fs_state (active_operations s) (peak_operations s) (queued_operations s) v
    (total_writes s) (total_bytes_read s) (total_bytes_written s)
    (failed_operations s) (mutex s) (initialized s).

Definition with_total_writes (v : Z) (s : fs_module_state_t) : fs_module_state_t :=
  mk_fs_state (active_operations s) (peak_operations s) (queued_operations s)
    (total_reads s) v (total_bytes_read s) (total_bytes_written s)
    (failed_operations s) (mutex s) (initialized s).

Definition with_total_bytes_read (v : Z) (s : fs_module_state_t) : fs_module_state_t :=
  mk_fs_state (active_operations s) (peak_operations s) (queued_operations s)
    (total_reads s) (total_writes s) v (total_bytes_written s)
    (failed_operations s) (mutex s) (initialized s).

Definition with_total_bytes_written (v : Z) (s : fs_module_state_t) : fs_module_state_t :=
  mk_fs_state (active_operations s) (peak_operations s) (queued_operations s)
    (total_reads s) (total_writes s) (total_bytes_read s) v
    (failed_operations s) (mutex s) (initialized s).

Definition with_failed (v : Z) (s : fs_module_state_t) : fs_module_state_t :=
  mk_fs_state (active_operations s) (peak_operations s) (queued_operations s)
    (total_reads s) (total_writes s) (total_bytes_read s)
    (total_bytes_written s) v (mutex s) (initialized s).

Definition with_mutex (v : uv_mutex_t) (s : fs_module_state_t) : fs_module_state_t :=
  mk_fs_state (active_operations s) (peak_operations s) (queued_operations s)
    (total_reads s) (total_writes s) (total_bytes_read s)
    (total_bytes_written s) (failed_operations s) v (initialized s).

Definition with_initialized (v : bool) (s : fs_module_state_t) : fs_module_state_t :=
  mk_fs_state (active_operations s) (peak_operations s) (queued_operations s)
    (total_reads s) (total_writes s) (total_bytes_read s)
    (total_bytes_written s) (failed_operations s) (mutex s) v.

Definition uv_mutex_lock (s : fs_module_state_t) : fs_module_state_t :=
  with_mutex MutexLocked s.
Definition uv_mutex_unlock (s : fs_module_state_t) : fs_module_state_t :=
  with_mutex MutexUnlocked s.
Definition uv_mutex_destroy (s : fs_module_state_t) : fs_module_state_t :=
  with_mutex MutexDestroyed s.

(** ** Lifecycle *)

(** What [fs_init] and [fs_cleanup] do besides changing [fs_state]. *)
Inductive lifecycle_event : Type :=
| LcStderr (fmt : string) (args : list Z)
| LcUnlock
| LcSleep (ms : Z)
| LcLock
| LcDestroy.

(** [fs_init]; [mutex_init_ok] says whether [uv_mutex_init] returns 0. *)
Definition fs_init (mutex_init_ok : bool) (s : fs_module_state_t)
  : Z * fs_module_state_t * list lifecycle_event :=
  if initialized s then (0, s, [])
  else if negb mutex_init_ok then
    (-1, s, [LcStderr "[ecewo-fs] Failed to initialize mutex\n" []])
  else (0, with_initialized true (with_mutex MutexUnlocked s), []).

(** The wait loop of [fs_cleanup]:
    [while (fs_state.active_operations > 0 && wait_count < 100) { unlock;
    uv_sleep(10); lock; wait_count++; }].
    [remaining] is [100 - wait_count].  While the lock is released other
    threads may change the registry: [others k] is what they do to it during
    the sleep of iteration [k]. *)
Fixpoint fs_cleanup_wait (others : nat -> fs_module_state_t -> fs_module_state_t)
    (wait_count remaining : nat) (s : fs_module_state_t)
  : fs_module_state_t * list lifecycle_event :=
  match remaining with
  | O => (s, [])
  | S remaining' =>
      if 0 <? active_operations s then
        let s1 := uv_mutex_unlock s in
        let s2 := others wait_count s1 in
        let s3 := uv_mutex_lock s2 in
        let '(s4, evs) := fs_cleanup_wait others (S wait_count) remaining' s3 in
        (s4, LcUnlock :: LcSleep 10 :: LcLock :: evs)
      else (s, [])
  end.

Definition fs_cleanup (others : nat -> fs_module_state_t -> fs_module_state_t)
    (s : fs_module_state_t) : fs_module_state_t * list lifecycle_event :=
  if negb (initialized s) then (s, [])
  else
    let s1 := uv_mutex_lock s in
    let '(s2, waited) := fs_cleanup_wait others 0 100 s1 in
    let warning :=
      if 0 <? active_operations s2 then
        [LcStderr "[ecewo-fs] Warning: %d operations still active during cleanup\n"
                  [active_operations s2]]
      else [] in
    let s3 := with_initialized false s2 in
    let s4 := uv_mutex_unlock s3 in
    let s5 := uv_mutex_destroy s4 in
    (s5, LcLock :: waited ++ warning ++ [LcUnlock; LcDestroy]).

(** ** Statistics *)

(** [fs_get_stats]: [stats] is the caller's struct behind the pointer, [None]
    for a null pointer; the result is that struct after the call. *)
Definition fs_get_stats (stats : option fs_stats_t) (s : fs_module_state_t)
  : option fs_stats_t * fs_module_state_t :=
  match stats with
  | None => (stats, s)
  | Some _ =>
      if negb (initialized s) then (stats, s)
      else
        let s1 := uv_mutex_lock s in
        let out :=
          mk_fs_stats (active_operations s1) (peak_operations s1)
            (queued_operations s1) (total_reads s1) (total_writes s1)
            (total_bytes_read s1) (total_bytes_written s1)
            (failed_operations s1) in
        (Some out, uv_mutex_unlock s1)
  end.

Definition fs_reset_stats (s : fs_module_state_t) : fs_module_state_t :=
  if negb (initialized s) then s
  else
    let s := uv_mutex_lock s in
    let s := with_total_reads 0 s in
    let s := with_total_writes 0 s in
    let s := with_total_bytes_read 0 s in
    let s := with_total_bytes_written 0 s in
    let s := with_failed 0 s in
    let s := with_peak 0 s in
    uv_mutex_unlock s.

(** ** Admission *)

Definition fs_can_accept_operation (s : fs_module_state_t) : Z * fs_module_state_t :=
  if negb (initialized s) then (-1, s)
  else
    let s := uv_mutex_lock s in
    let can := Z.b2z (active_operations s <? ECEWO_FS_MAX_CONCURRENT_OPS) in
    (can, uv_mutex_unlock s).

Definition fs_begin_operation (s : fs_module_state_t) : fs_module_state_t :=
  let s := uv_mutex_lock s in
  let s := with_active (int_wrap (active_operations s + 1)) s in
  let s := if peak_operations s <? active_operations s
           then with_peak (active_operations s) s else s in
  uv_mutex_unlock s.

Definition fs_end_operation (s : fs_module_state_t) : fs_module_state_t :=
  let s := uv_mutex_lock s in
  let s := if 0 <? active_operations s
           then with_active (int_wrap (active_operations s - 1)) s else s in
  uv_mutex_unlock s.

Definition fs_record_read (bytes : Z) (s : fs_module_state_t) : fs_module_state_t :=
  let s := uv_mutex_lock s in
  let s := with_total_reads (u64_wrap (total_reads s + 1)) s in
  let s := with_total_bytes_read (u64_wrap (total_bytes_read s + bytes)) s in
  uv_mutex_unlock s.

Definition fs_record_write (bytes : Z) (s : fs_module_state_t) : fs_module_state_t :=
  let s := uv_mutex_lock s in
  let s := with_total_writes (u64_wrap (total_writes s + 1)) s in
  let s := with_total_bytes_written (u64_wrap (total_bytes_written s + bytes)) s in
  uv_mutex_unlock s.

Definition fs_record_error (s : fs_module_state_t) : fs_module_state_t :=
  let s := uv_mutex_lock s in
  let s := with_failed (int_wrap (failed_operations s + 1)) s in
  uv_mutex_unlock s.

(* ===================================================================== *)
(** * The outside world: allocator, reactor, user callbacks *)
(* ===================================================================== *)

(** uv.h is not part of the repository; only [st_size] is read by the
    engine, the rest of [uv_stat_t] is handed through to the caller. *)
Record uv_stat_t : Type := mk_uv_stat {
  st_size : Z;   (* uint64_t *)
  st_mode : Z
}.

(** Open flags of uv.h (their Linux values) and the two creation modes. *)
Definition UV_FS_O_RDONLY : Z := 0.
Definition UV_FS_O_WRONLY : Z := 1.
Definition UV_FS_O_CREAT : Z := 64.
Definition UV_FS_O_TRUNC : Z := 512.
Definition UV_FS_O_APPEND : Z := 1024.
Definition mode_0644 : Z := 420.
Definition mode_0755 : Z := 493.

(** The completion handlers a request can be registered with. *)
Inductive uv_fs_cb : Type :=
| CbReadStat | CbReadOpen | CbReadData | CbReadClose
| CbWriteOpen | CbWriteData | CbWriteClose
| CbStat | CbSimpleOp | CbRename.

(** A call into libuv's file API. *)
Inductive uv_call : Type :=
| UvFsStat (path : string)
| UvFsOpen (path : string) (flags mode : Z)
| UvFsRead (file : Z) (len : Z) (offset : Z)
| UvFsWrite (file : Z) (buf : list byte) (offset : Z)
| UvFsClose (file : Z)
| UvFsUnlink (path : string)
| UvFsMkdir (path : string) (mode : Z)
| UvFsRmdir (path : string)
| UvFsRename (path new_path : string).

(** What the reactor answers to a call: the value the call itself returns,
    and what the completion will carry. *)
Record rx_reply : Type := mk_rx_reply {
  rx_ret : Z;              (* return value of the uv_fs_* call *)
  rx_result : Z;           (* uv_req->result at completion *)
  rx_statbuf : uv_stat_t;  (* uv_req->statbuf at completion *)
  rx_bytes : list byte     (* bytes placed in the buffer by a read *)
}.

(** libuv as the engine sees it. *)
Class Libuv (R : Type) : Type := {
  rx_submit : uv_call -> R -> rx_reply * R;
  uv_err_name : Z -> string;
  uv_strerror : Z -> string
}.

Definition Arena : Type := Z.
Definition fn_ptr : Type := Z.

Inductive alloc_site : Type :=
| Calloc            (* calloc(1, sizeof(fs_request_t)) *)
| Strdup (s : string)
| Malloc (n : Z)
| ArenaAlloc (a : Arena) (n : Z).

Inductive owned : Type :=
| OwnReq | OwnPath | OwnPath2 | OwnErrorMsg | OwnData.

Inductive event : Type :=
| EvStderr (fmt : string) (args : list Z)
| EvAlloc (site : alloc_site) (ok : bool)
| EvFree (what : owned)
| EvIssue (call : uv_call) (cb : option uv_fs_cb) (ret : Z)
| EvReqCleanup
| EvReadCallback (fn : fn_ptr) (error : option string)
    (data : option (list byte)) (size : Z) (user_data : Z)
| EvWriteCallback (fn : fn_ptr) (error : option string) (user_data : Z)
| EvStatCallback (fn : fn_ptr) (error : option string)
    (stat : option uv_stat_t) (user_data : Z).

(** [uv_fs_t], the part the handlers read. *)
Record uv_fs_t : Type := mk_uv_fs {
  result : Z;
  statbuf : uv_stat_t
}.

Record fs_request_t : Type := mk_fs_request {
  fs_req : uv_fs_t;
  arena : option Arena;
  user_data : Z;
  read_callback : option fn_ptr;
  write_callback : option fn_ptr;
  stat_callback : option fn_ptr;
  data : option (list byte);
  size : Z;
  stat : uv_stat_t;
  path : option string;
  path2 : option string;
  file : Z;
  file_size : Z;
  error_msg : option string
}.

(** [calloc(1, sizeof(fs_request_t))] *)
Definition fs_request_zero : fs_request_t :=
  mk_fs_request (mk_uv_fs 0 (mk_uv_stat 0 0)) None 0 None None None None 0
    (mk_uv_stat 0 0) None None 0 0 None.

Definition with_fs_req (v : uv_fs_t) (r : fs_request_t) : fs_request_t :=
  mk_fs_request v (arena r) (user_data r) (read_callback r) (write_callback r)
    (stat_callback r) (data r) (size r) (stat r) (path r) (path2 r) (file r)
    (file_size r) (error_msg r).
Definition with_arena (v : option Arena) (r : fs_request_t) : fs_request_t :=
  mk_fs_request (fs_req r) v (user_data r) (read_callback r) (write_callback r)
    (stat_callback r) (data r) (size r) (stat r) (path r) (path2 r) (file r)
    (file_size r) (error_msg r).
Definition with_user_data (v : Z) (r : fs_request_t) : fs_request_t :=
  mk_fs_request (fs_req r) (arena r) v (read_callback r) (write_callback r)
    (stat_callback r) (data r) (size r) (stat r) (path r) (path2 r) (file r)
    (file_size r) (error_msg r).
Definition with_read_callback (v : option fn_ptr) (r : fs_request_t) : fs_request_t :=
  mk_fs_request (fs_req r) (arena r) (user_data r) v (write_callback r)
    (stat_callback r) (data r) (size r) (stat r) (path r) (path2 r) (file r)
    (file_size r) (error_msg r).
Definition with_write_callback (v : option fn_ptr) (r : fs_request_t) : fs_request_t :=
  mk_fs_request (fs_req r) (arena r) (user_data r) (read_callback r) v
    (stat_callback r) (data r) (size r) (stat r) (path r) (path2 r) (file r)
    (file_size r) (error_msg r).
Definition with_stat_callback (v : option fn_ptr) (r : fs_request_t) : fs_request_t :=
  mk_fs_request (fs_req r) (arena r) (user_data r) (read_callback r)
    (write_callback r) v (data r) (size r) (stat r) (path r) (path2 r) (file r)
    (file_size r) (error_msg r).
Definition with_path (v : option string) (r : fs_request_t) : fs_request_t :=
  mk_fs_request (fs_req r) (arena r) (user_data r) (read_callback r)
    (write_callback r) (stat_callback r) (data r) (size r) (stat r) v (path2 r)
    (file r) (file_size r) (error_msg r).
Definition with_path2 (v : option string) (r : fs_request_t) : fs_request_t :=
  mk_fs_request (fs_req r) (arena r) (user_data r) (read_callback r)
    (write_callback r) (stat_callback r) (data r) (size r) (stat r) (path r) v
    (file r) (file_size r) (error_msg r).
Definition with_data (v : option (list byte)) (r : fs_request_t) : fs_request_t :=
  mk_fs_request (fs_req r) (arena r) (user_data r) (read_callback r)
    (write_callback r) (stat_callback r) v (size r) (stat r) (path r) (path2 r)
    (file r) (file_size r) (error_msg r).
Definition with_size (v : Z) (r : fs_request_t) : fs_request_t :=
  mk_fs_request (fs_req r) (arena r) (user_data r) (read_callback r)
    (write_callback r) (stat_callback r) (data r) v (stat r) (path r) (path2 r)
    (file r) (file_size r) (error_msg r).
Definition with_stat (v : uv_stat_t) (r : fs_request_t) : fs_request_t :=
  mk_fs_request (fs_req r) (arena r) (user_data r) (read_callback r)
    (write_callback r) (stat_callback r) (data r) (size r) v (path r) (path2 r)
    (file r) (file_size r) (error_msg r).
Definition with_file (v : Z) (r : fs_request_t) : fs_request_t :=
  mk_fs_request (fs_req r) (arena r) (user_data r) (read_callback r)
    (write_callback r) (stat_callback r) (data r) (size r) (stat r) (path r)
    (path2 r) v (file_size r) (error_msg r).
Definition with_file_size (v : Z) (r : fs_request_t) : fs_request_t :=
  mk_fs_request (fs_req r) (arena r) (user_data r) (read_callback r)
    (write_callback r) (stat_callback r) (data r) (size r) (stat r) (path r)
    (path2 r) (file r) v (error_msg r).
Definition with_error_msg (v : option string) (r : fs_request_t) : fs_request_t :=
  mk_fs_request (fs_req r) (arena r) (user_data r) (read_callback r)
    (write_callback r) (stat_callback r) (data r) (size r) (stat r) (path r)
    (path2 r) (file r) (file_size r) v.

(** The world an operation runs in.  [allocs] lists the outcomes of the
    allocation calls still to come ([true]: a block is returned), an
    exhausted list meaning success.  [pending] are the requests the reactor
    has accepted, oldest first, each with the handler it will call and the
    request as the handler will find it. *)
Record world (R : Type) : Type := mk_world {
  fs_state : fs_module_state_t;
  trace : list event;
  allocs : list bool;
  reactor : R;
  pending : list (uv_fs_cb * fs_request_t)
}.
Arguments mk_world {R}.
Arguments fs_state {R}.
Arguments trace {R}.
Arguments allocs {R}.
Arguments reactor {R}.
Arguments pending {R}.

Definition M (R A : Type) : Type := world R -> A * world R.

Definition ret {R A : Type} (a : A) : M R A := fun w => (a, w).
Definition bind {R A B : Type} (m : M R A) (k : A -> M R B) : M R B :=
  fun w => let '(a, w1) := m w in k a w1.

Declare Scope fs_scope.
Delimit Scope fs_scope with fs.
Notation "'let*' x ':=' m 'in' k" := (bind m (fun x => k))
  (at level 10, x name, m at level 100, k at level 200) : fs_scope.
Notation "m ';;' k" := (bind m (fun _ => k))
  (at level 100, k at level 200, right associativity) : fs_scope.
Open Scope fs_scope.

(* ===================================================================== *)
(** * Primitives of the engine *)
(* ===================================================================== *)

Section Engine.
Context {R : Type} {uv : Libuv R}.

Definition emit (e : event) : M R unit := fun w =>
  (tt, mk_world (fs_state w) (trace w ++ [e]) (allocs w) (reactor w) (pending w)).

(** A registry function run on the global [fs_state]. *)
Definition registry (f : fs_module_state_t -> fs_module_state_t) : M R unit := fun w =>
  (tt, mk_world (f (fs_state w)) (trace w) (allocs w) (reactor w) (pending w)).

Definition registry_get {A : Type} (f : fs_module_state_t -> A * fs_module_state_t)
  : M R A := fun w =>
  let '(a, s) := f (fs_state w) in
  (a, mk_world s (trace w) (allocs w) (reactor w) (pending w)).

Definition read_state : M R fs_module_state_t := fun w => (fs_state w, w).

(** One allocation call: whether a block comes back is the allocator's
    next outcome. *)
Definition alloc (site : alloc_site) : M R bool := fun w =>
  let ok := hd true (allocs w) in
  (ok, mk_world (fs_state w) (trace w ++ [EvAlloc site ok]) (tail (allocs w))
         (reactor w) (pending w)).

(** A block of [n] bytes as the allocator returns it; its contents are
    indeterminate and stand here as zero bytes. *)
Definition fresh_block (n : Z) : list byte := repeat "000"%byte (Z.to_nat n).

(** The request as the handler finds it when the completion is delivered:
    libuv has filled [result] and [statbuf], and a read has placed at most
    [len] bytes at the start of the buffer it was given. *)
Definition completed (call : uv_call) (rep : rx_reply) (req : fs_request_t)
  : fs_request_t :=
  match call with
  | UvFsRead _ len _ =>
      if rx_result rep <? 0
      then with_fs_req (mk_uv_fs (rx_result rep) (rx_statbuf rep)) req
      else
        let got := take (Z.to_nat (Z.min (rx_result rep) len)) (rx_bytes rep) in
        let n := length got in
        with_fs_req (mk_uv_fs (Z.of_nat n) (rx_statbuf rep))
          (with_data ((fun buf => got ++ drop n buf) <$> data req) req)
  | _ => with_fs_req (mk_uv_fs (rx_result rep) (rx_statbuf rep)) req
  end.

(** A [uv_fs_*] call with a completion handler: when libuv accepts it
    (return value not negative) the request joins [pending]; when it does
    not, no completion will ever be delivered for it. *)
Definition submit (call : uv_call) (cb : uv_fs_cb) (req : fs_request_t) : M R Z :=
  fun w =>
    let '(rep, r') := rx_submit call (reactor w) in
    let tr := trace w ++ [EvIssue call (Some cb) (rx_ret rep)] in
    if rx_ret rep <? 0
    then (rx_ret rep, mk_world (fs_state w) tr (allocs w) r' (pending w))
    else (rx_ret rep,
          mk_world (fs_state w) tr (allocs w) r'
            (pending w ++ [(cb, completed call rep req)])).

(** A [uv_fs_*] call with a NULL handler runs synchronously. *)
Definition submit_sync (call : uv_call) : M R Z := fun w =>
  let '(rep, r') := rx_submit call (reactor w) in
  (rx_ret rep,
   mk_world (fs_state w) (trace w ++ [EvIssue call None (rx_ret rep)])
     (allocs w) r' (pending w)).

Definition str (o : option string) : string := default ""%string o.

Definition uv_fs_stat (req : fs_request_t) (p : string) (cb : uv_fs_cb) : M R Z :=
  submit (UvFsStat p) cb req.
Definition uv_fs_open (req : fs_request_t) (p : string) (flags mode : Z)
    (cb : uv_fs_cb) : M R Z :=
  submit (UvFsOpen p flags mode) cb req.
Definition uv_fs_read (req : fs_request_t) (f len offset : Z) (cb : uv_fs_cb) : M R Z :=
  submit (UvFsRead f len offset) cb req.
Definition uv_fs_write (req : fs_request_t) (f : Z) (buf : list byte) (offset : Z)
    (cb : uv_fs_cb) : M R Z :=
  submit (UvFsWrite f buf offset) cb req.
Definition uv_fs_close (req : fs_request_t) (f : Z) (cb : option uv_fs_cb) : M R Z :=
  match cb with
  | Some cb => submit (UvFsClose f) cb req
  | None => submit_sync (UvFsClose f)
  end.
Definition uv_fs_req_cleanup : M R unit := emit EvReqCleanup.

(** [snprintf(buf, n, ...)] keeps at most [n - 1] characters. *)
Definition snprintf (n : nat) (s : string) : string := String.substring 0 (n - 1) s.

Definition make_error_msg (errcode : Z) : M R (option string) :=
  let* ok := alloc (Malloc 256) in
  if negb ok then ret None
  else ret (Some (snprintf 256 (uv_err_name errcode +:+ ": " +:+ uv_strerror errcode))).

Definition when (b : bool) (m : M R unit) : M R unit := if b then m else ret tt.

Definition fs_request_cleanup (req : option fs_request_t) (free_data : bool) : M R unit :=
  match req with
  | None => ret tt
  | Some req =>
      when (bool_decide (is_Some (path req))) (emit (EvFree OwnPath)) ;;
      when (bool_decide (is_Some (path2 req))) (emit (EvFree OwnPath2)) ;;
      when (bool_decide (is_Some (error_msg req))) (emit (EvFree OwnErrorMsg)) ;;
      when (free_data && bool_decide (is_Some (data req))
            && negb (bool_decide (is_Some (arena req))))
        (emit (EvFree OwnData)) ;;
      emit (EvFree OwnReq)
  end.

Definition call_read (cb : option fn_ptr) (error : option string)
    (d : option (list byte)) (n : Z) (ud : Z) : M R unit :=
  match cb with
  | Some fn => emit (EvReadCallback fn error d n ud)
  | None => ret tt
  end.
Definition call_write (cb : option fn_ptr) (error : option string) (ud : Z) : M R unit :=
  match cb with
  | Some fn => emit (EvWriteCallback fn error ud)
  | None => ret tt
  end.
Definition call_stat (cb : option fn_ptr) (error : option string)
    (st : option uv_stat_t) (ud : Z) : M R unit :=
  match cb with
  | Some fn => emit (EvStatCallback fn error st ud)
  | None => ret tt
  end.

(** [msg ? msg : fallback] *)
Definition or_else (msg : option string) (fallback : string) : option string :=
  Some (default fallback msg).

(* ===================================================================== *)
(** * Read: stat, open, read, close *)
(* ===================================================================== *)

Definition read_close_cb (req : fs_request_t) : M R unit :=
  uv_fs_req_cleanup ;;
  call_read (read_callback req) None (data req) (size req) (user_data req) ;;
  registry (fs_record_read (size req)) ;;
  registry fs_end_operation ;;
  (* the data is the user's, or the arena's *)
  fs_request_cleanup (Some req) false.

Definition read_data_cb (req : fs_request_t) : M R unit :=
  if result (fs_req req) <? 0 then
    let* msg := make_error_msg (int_wrap (result (fs_req req))) in
    let req := with_error_msg msg req in
    uv_fs_req_cleanup ;;
    uv_fs_close req (file req) None ;;
    call_read (read_callback req) (or_else (error_msg req) "Read failed")
      None 0 (user_data req) ;;
    registry fs_record_error ;;
    registry fs_end_operation ;;
    fs_request_cleanup (Some req) true
  else
    let req := with_size (size_wrap (result (fs_req req))) req in
    (* req->data[req->size] = '\0' *)
    let req := with_data (<[Z.to_nat (size req) := "000"%byte]> <$> data req) req in
    uv_fs_req_cleanup ;;
    uv_fs_close req (file req) (Some CbReadClose) ;;
    ret tt.

Definition read_open_cb (req : fs_request_t) : M R unit :=
  if result (fs_req req) <? 0 then
    let* msg := make_error_msg (int_wrap (result (fs_req req))) in
    let req := with_error_msg msg req in
    uv_fs_req_cleanup ;;
    call_read (read_callback req) (or_else (error_msg req) "Open failed")
      None 0 (user_data req) ;;
    registry fs_record_error ;;
    registry fs_end_operation ;;
    fs_request_cleanup (Some req) false
  else
    let req := with_file (int_wrap (result (fs_req req))) req in
    uv_fs_req_cleanup ;;
    let n := size_wrap (file_size req + 1) in
    let* ok := match arena req with
               | Some a => alloc (ArenaAlloc a n)
               | None => alloc (Malloc n)
               end in
    let req := with_data (if ok then Some (fresh_block n) else None) req in
    if negb (bool_decide (is_Some (data req))) then
      uv_fs_close req (file req) None ;;
      call_read (read_callback req) (Some "Memory allocation failed"%string)
        None 0 (user_data req) ;;
      registry fs_record_error ;;
      registry fs_end_operation ;;
      fs_request_cleanup (Some req) false
    else
      (* uv_buf_init(req->data, (unsigned int)req->file_size) *)
      uv_fs_read req (file req) (uint_wrap (file_size req)) 0 CbReadData ;;
      ret tt.

Definition read_stat_cb (req : fs_request_t) : M R unit :=
  if result (fs_req req) <? 0 then
    let* msg := make_error_msg (int_wrap (result (fs_req req))) in
    let req := with_error_msg msg req in
    uv_fs_req_cleanup ;;
    call_read (read_callback req) (or_else (error_msg req) "Stat failed")
      None 0 (user_data req) ;;
    registry fs_record_error ;;
    registry fs_end_operation ;;
    fs_request_cleanup (Some req) false
  else
    let req := with_file_size (size_wrap (st_size (statbuf (fs_req req)))) req in
    if ECEWO_FS_MAX_FILE_SIZE <? file_size req then
      uv_fs_req_cleanup ;;
      call_read (read_callback req) (Some "File too large"%string)
        None 0 (user_data req) ;;
      registry fs_record_error ;;
      registry fs_end_operation ;;
      fs_request_cleanup (Some req) false
    else
      uv_fs_req_cleanup ;;
      uv_fs_open req (str (path req)) UV_FS_O_RDONLY 0 CbReadOpen ;;
      ret tt.

Definition fs_read_file (p : option string) (a : option Arena)
    (callback : option fn_ptr) (ud : Z) : M R Z :=
  match p, callback with
  | Some p, Some callback =>
      let* st := read_state in
      if negb (initialized st) then
        emit (EvStderr "[ecewo-fs] Module not initialized - call fs_init() first\n" []) ;;
        ret (-1)
      else
        let* can := registry_get fs_can_accept_operation in
        if can =? 0 then
          let* st := read_state in
          emit (EvStderr "[ecewo-fs] Too many concurrent operations (%d/%d)\n"
                  [active_operations st; ECEWO_FS_MAX_CONCURRENT_OPS]) ;;
          ret (-1)
        else
          let* got := alloc Calloc in
          if negb got then
            emit (EvStderr "[ecewo-fs] Memory allocation failed\n" []) ;;
            ret (-1)
          else
            let req := fs_request_zero in
            let req := with_arena a req in
            let req := with_user_data ud req in
            let req := with_read_callback (Some callback) req in
            let* dup := alloc (Strdup p) in
            let req := with_path (if dup then Some p else None) req in
            if negb (bool_decide (is_Some (path req))) then
              emit (EvFree OwnReq) ;;
              ret (-1)
            else
              registry fs_begin_operation ;;
              let* r := uv_fs_stat req (str (path req)) CbReadStat in
              if r <? 0 then
                let* msg := make_error_msg r in
                let req := with_error_msg msg req in
                emit (EvReadCallback callback
                        (or_else (error_msg req) "Stat failed") None 0 ud) ;;
                registry fs_record_error ;;
                registry fs_end_operation ;;
                fs_request_cleanup (Some req) false ;;
                ret (-1)
              else ret 0
  | _, _ =>
      emit (EvStderr "[ecewo-fs] fs_read_file: Invalid arguments\n" []) ;;
      ret (-1)
  end.

(* ===================================================================== *)
(** * Write and append: open, write, close *)
(* ===================================================================== *)

Definition write_close_cb (req : fs_request_t) : M R unit :=
  uv_fs_req_cleanup ;;
  call_write (write_callback req) None (user_data req) ;;
  registry (fs_record_write (size req)) ;;
  registry fs_end_operation ;;
  fs_request_cleanup (Some req) true.

Definition write_data_cb (req : fs_request_t) : M R unit :=
  if result (fs_req req) <? 0 then
    let* msg := make_error_msg (int_wrap (result (fs_req req))) in
    let req := with_error_msg msg req in
    uv_fs_req_cleanup ;;
    uv_fs_close req (file req) None ;;
    call_write (write_callback req) (or_else (error_msg req) "Write failed")
      (user_data req) ;;
    registry fs_record_error ;;
    registry fs_end_operation ;;
    fs_request_cleanup (Some req) true
  else
    let req := with_size (size_wrap (result (fs_req req))) req in
    uv_fs_req_cleanup ;;
    uv_fs_close req (file req) (Some CbWriteClose) ;;
    ret tt.

Definition write_open_cb (req : fs_request_t) : M R unit :=
  if result (fs_req req) <? 0 then
    let* msg := make_error_msg (int_wrap (result (fs_req req))) in
    let req := with_error_msg msg req in
    uv_fs_req_cleanup ;;
    call_write (write_callback req) (or_else (error_msg req) "Open failed")
      (user_data req) ;;
    registry fs_record_error ;;
    registry fs_end_operation ;;
    fs_request_cleanup (Some req) true
  else
    let req := with_file (int_wrap (result (fs_req req))) req in
    uv_fs_req_cleanup ;;
    (* uv_buf_init(req->data, (unsigned int)req->size) *)
    let buf := take (Z.to_nat (uint_wrap (size req))) (default [] (data req)) in
    uv_fs_write req (file req) buf 0 CbWriteData ;;
    ret tt.

(** [memcpy(dst, src, n)] *)
Definition memcpy (dst src : list byte) (n : Z) : list byte :=
  let copied := take (Z.to_nat n) src in
  copied ++ drop (length copied) dst.

Definition fs_write_internal (p : option string) (d : option (list byte)) (n : Z)
    (callback : option fn_ptr) (ud : Z) (flags : Z) : M R Z :=
  match p, d, callback with
  | Some p, Some d, Some callback =>
      let* st := read_state in
      if negb (initialized st) then
        emit (EvStderr "[ecewo-fs] Module not initialized - call fs_init() first\n" []) ;;
        ret (-1)
      else
        let* can := registry_get fs_can_accept_operation in
        if can =? 0 then
          emit (EvStderr "[ecewo-fs] Too many concurrent operations\n" []) ;;
          ret (-1)
        else if ECEWO_FS_MAX_FILE_SIZE <? n then
          emit (EvStderr "[ecewo-fs] Data too large (%zu bytes > %d max)\n"
                  [n; ECEWO_FS_MAX_FILE_SIZE]) ;;
          ret (-1)
        else
          let* got := alloc Calloc in
          if negb got then ret (-1)
          else
            let req := fs_request_zero in
            let req := with_user_data ud req in
            let req := with_write_callback (Some callback) req in
            let* dup := alloc (Strdup p) in
            let req := with_path (if dup then Some p else None) req in
            let* blk := alloc (Malloc n) in
            let req := with_data (if blk then Some (fresh_block n) else None) req in
            let req := with_size n req in
            if negb (bool_decide (is_Some (path req)))
               || negb (bool_decide (is_Some (data req))) then
              fs_request_cleanup (Some req) true ;;
              ret (-1)
            else
              let req := with_data ((fun dst => memcpy dst d n) <$> data req) req in
              registry fs_begin_operation ;;
              let* r := uv_fs_open req (str (path req)) flags mode_0644 CbWriteOpen in
              if r <? 0 then
                let* msg := make_error_msg r in
                let req := with_error_msg msg req in
                emit (EvWriteCallback callback
                        (or_else (error_msg req) "Open failed") ud) ;;
                registry fs_record_error ;;
                registry fs_end_operation ;;
                fs_request_cleanup (Some req) true ;;
                ret (-1)
              else ret 0
  | _, _, _ =>
      emit (EvStderr "[ecewo-fs] fs_write: Invalid arguments\n" []) ;;
      ret (-1)
  end.

Definition fs_write_file (p : option string) (d : option (list byte)) (n : Z)
    (callback : option fn_ptr) (ud : Z) : M R Z :=
  fs_write_internal p d n callback ud
    (Z.lor (Z.lor UV_FS_O_WRONLY UV_FS_O_CREAT) UV_FS_O_TRUNC).

Definition fs_append_file (p : option string) (d : option (list byte)) (n : Z)
    (callback : option fn_ptr) (ud : Z) : M R Z :=
  fs_write_internal p d n callback ud
    (Z.lor (Z.lor UV_FS_O_WRONLY UV_FS_O_CREAT) UV_FS_O_APPEND).

(* ===================================================================== *)
(** * Stat, unlink, mkdir, rmdir, rename *)
(* ===================================================================== *)

Definition stat_cb (req : fs_request_t) : M R unit :=
  if result (fs_req req) <? 0 then
    let* msg := make_error_msg (int_wrap (result (fs_req req))) in
    let req := with_error_msg msg req in
    uv_fs_req_cleanup ;;
    call_stat (stat_callback req) (or_else (error_msg req) "Stat failed")
      None (user_data req) ;;
    registry fs_record_error ;;
    registry fs_end_operation ;;
    fs_request_cleanup (Some req) false
  else
    let req := with_stat (statbuf (fs_req req)) req in
    uv_fs_req_cleanup ;;
    call_stat (stat_callback req) None (Some (stat req)) (user_data req) ;;
    registry fs_end_operation ;;
    fs_request_cleanup (Some req) false.

Definition fs_stat (p : option string) (callback : option fn_ptr) (ud : Z) : M R Z :=
  match p, callback with
  | Some p, Some callback =>
      let* st := read_state in
      if negb (initialized st) then
        emit (EvStderr "[ecewo-fs] Module not initialized\n" []) ;;
        ret (-1)
      else
        let* can := registry_get fs_can_accept_operation in
        if can =? 0 then ret (-1)
        else
          let* got := alloc Calloc in
          if negb got then ret (-1)
          else
            let req := fs_request_zero in
            let req := with_user_data ud req in
            let req := with_stat_callback (Some callback) req in
            let* dup := alloc (Strdup p) in
            let req := with_path (if dup then Some p else None) req in
            if negb (bool_decide (is_Some (path req))) then
              emit (EvFree OwnReq) ;;
              ret (-1)
            else
              registry fs_begin_operation ;;
              let* r := uv_fs_stat req (str (path req)) CbStat in
              if r <? 0 then
                let* msg := make_error_msg r in
                let req := with_error_msg msg req in
                emit (EvStatCallback callback
                        (or_else (error_msg req) "Stat failed") None ud) ;;
                registry fs_record_error ;;
                registry fs_end_operation ;;
                fs_request_cleanup (Some req) false ;;
                ret (-1)
              else ret 0
  | _, _ => ret (-1)
  end.

Definition simple_op_cb (req : fs_request_t) : M R unit :=
  let* failed :=
    if result (fs_req req) <? 0 then
      let* msg := make_error_msg (int_wrap (result (fs_req req))) in
      let req := with_error_msg msg req in
      (* error = req->error_msg *)
      registry fs_record_error ;;
      ret (req, error_msg req)
    else ret (req, None) in
  let '(req, error) := failed in
  uv_fs_req_cleanup ;;
  call_write (write_callback req) error (user_data req) ;;
  registry fs_end_operation ;;
  fs_request_cleanup (Some req) false.

(** [op_fn] is [uv_fs_unlink] or [uv_fs_rmdir]. *)
Definition fs_simple_op (p : option string) (callback : option fn_ptr) (ud : Z)
    (op_fn : string -> uv_call) : M R Z :=
  match p, callback with
  | Some p, Some callback =>
      let* st := read_state in
      if negb (initialized st) then ret (-1)
      else
        let* can := registry_get fs_can_accept_operation in
        if can =? 0 then ret (-1)
        else
          let* got := alloc Calloc in
          if negb got then ret (-1)
          else
            let req := fs_request_zero in
            let req := with_user_data ud req in
            let req := with_write_callback (Some callback) req in
            let* dup := alloc (Strdup p) in
            let req := with_path (if dup then Some p else None) req in
            if negb (bool_decide (is_Some (path req))) then
              emit (EvFree OwnReq) ;;
              ret (-1)
            else
              registry fs_begin_operation ;;
              let* r := submit (op_fn (str (path req))) CbSimpleOp req in
              if r <? 0 then
                let* msg := make_error_msg r in
                let req := with_error_msg msg req in
                emit (EvWriteCallback callback
                        (or_else (error_msg req) "Operation failed") ud) ;;
                registry fs_record_error ;;
                registry fs_end_operation ;;
                fs_request_cleanup (Some req) false ;;
                ret (-1)
              else ret 0
  | _, _ => ret (-1)
  end.

(** [op_fn] is [uv_fs_mkdir]. *)
Definition fs_simple_op_mode (p : option string) (callback : option fn_ptr) (ud : Z)
    (mode : Z) (op_fn : string -> Z -> uv_call) : M R Z :=
  match p, callback with
  | Some p, Some callback =>
      let* st := read_state in
      if negb (initialized st) then ret (-1)
      else
        let* can := registry_get fs_can_accept_operation in
        if can =? 0 then ret (-1)
        else
          let* got := alloc Calloc in
          if negb got then ret (-1)
          else
            let req := fs_request_zero in
            let req := with_user_data ud req in
            let req := with_write_callback (Some callback) req in
            let* dup := alloc (Strdup p) in
            let req := with_path (if dup then Some p else None) req in
            if negb (bool_decide (is_Some (path req))) then
              emit (EvFree OwnReq) ;;
              ret (-1)
            else
              registry fs_begin_operation ;;
              let* r := submit (op_fn (str (path req)) mode) CbSimpleOp req in
              if r <? 0 then
                let* msg := make_error_msg r in
                let req := with_error_msg msg req in
                emit (EvWriteCallback callback
                        (or_else (error_msg req) "Operation failed") ud) ;;
                registry fs_record_error ;;
                registry fs_end_operation ;;
                fs_request_cleanup (Some req) false ;;
                ret (-1)
              else ret 0
  | _, _ => ret (-1)
  end.

Definition fs_unlink (p : option string) (callback : option fn_ptr) (ud : Z) : M R Z :=
  fs_simple_op p callback ud UvFsUnlink.

Definition fs_mkdir (p : option string) (callback : option fn_ptr) (ud : Z) : M R Z :=
  fs_simple_op_mode p callback ud mode_0755 UvFsMkdir.

Definition fs_rmdir (p : option string) (callback : option fn_ptr) (ud : Z) : M R Z :=
  fs_simple_op p callback ud UvFsRmdir.

Definition rename_cb (req : fs_request_t) : M R unit :=
  let* failed :=
    if result (fs_req req) <? 0 then
      let* msg := make_error_msg (int_wrap (result (fs_req req))) in
      let req := with_error_msg msg req in
      registry fs_record_error ;;
      ret (req, error_msg req)
    else ret (req, None) in
  let '(req, error) := failed in
  uv_fs_req_cleanup ;;
  call_write (write_callback req) error (user_data req) ;;
  registry fs_end_operation ;;
  fs_request_cleanup (Some req) false.

Definition fs_rename (old_path new_path : option string) (callback : option fn_ptr)
    (ud : Z) : M R Z :=
  match old_path, new_path, callback with
  | Some old_path, Some new_path, Some callback =>
      let* st := read_state in
      if negb (initialized st) then ret (-1)
      else
        let* can := registry_get fs_can_accept_operation in
        if can =? 0 then ret (-1)
        else
          let* got := alloc Calloc in
          if negb got then ret (-1)
          else
            let req := fs_request_zero in
            let req := with_user_data ud req in
            let req := with_write_callback (Some callback) req in
            let* dup := alloc (Strdup old_path) in
            let req := with_path (if dup then Some old_path else None) req in
            let* dup2 := alloc (Strdup new_path) in
            let req := with_path2 (if dup2 then Some new_path else None) req in
            if negb (bool_decide (is_Some (path req)))
               || negb (bool_decide (is_Some (path2 req))) then
              fs_request_cleanup (Some req) false ;;
              ret (-1)
            else
              registry fs_begin_operation ;;
              let* r := submit (UvFsRename (str (path req)) (str (path2 req)))
                          CbRename req in
              if r <? 0 then
                let* msg := make_error_msg r in
                let req := with_error_msg msg req in
                emit (EvWriteCallback callback
                        (or_else (error_msg req) "Rename failed") ud) ;;
                registry fs_record_error ;;
                registry fs_end_operation ;;
                fs_request_cleanup (Some req) false ;;
                ret (-1)
              else ret 0
  | _, _, _ => ret (-1)
  end.

(* ===================================================================== *)
(** * The reactor delivering completions *)
(* ===================================================================== *)

Definition dispatch (cb : uv_fs_cb) (req : fs_request_t) : M R unit :=
  match cb with
  | CbReadStat => read_stat_cb req
  | CbReadOpen => read_open_cb req
  | CbReadData => read_data_cb req
  | CbReadClose => read_close_cb req
  | CbWriteOpen => write_open_cb req
  | CbWriteData => write_data_cb req
  | CbWriteClose => write_close_cb req
  | CbStat => stat_cb req
  | CbSimpleOp => simple_op_cb req
  | CbRename => rename_cb req
  end.

(** One turn of the event loop: the oldest accepted request completes and
    its handler runs. *)
Definition deliver : M R unit := fun w =>
  match pending w with
  | [] => (tt, w)
  | (cb, req) :: rest =>
      dispatch cb req
        (mk_world (fs_state w) (trace w) (allocs w) (reactor w) rest)
  end.

Fixpoint run_loop (turns : nat) : M R unit :=
  match turns with
  | O => ret tt
  | S k => deliver ;; run_loop k
  end.

End Engine.

(* ===================================================================== *)
(** * A scripted reactor *)
(* ===================================================================== *)

(** The replies of libuv are played back from a list, whatever the call;
    an exhausted script accepts the call and completes it with result 0.
    Every behaviour of libuv the engine can observe is some script. *)
Definition rx_done : rx_reply := mk_rx_reply 0 0 (mk_uv_stat 0 0) [].

Definition script_submit (_ : uv_call) (replies : list rx_reply)
  : rx_reply * list rx_reply :=
  match replies with
  | [] => (rx_done, [])
  | r :: rest => (r, rest)
  end.

(** A few of libuv's error codes (uv-errno.h, Linux). *)
Definition err_name (e : Z) : string :=
  if e =? -2 then "ENOENT"
  else if e =? -12 then "ENOMEM"
  else if e =? -13 then "EACCES"
  else if e =? -28 then "ENOSPC"
  else "UNKNOWN".

Definition err_text (e : Z) : string :=
  if e =? -2 then "no such file or directory"
  else if e =? -12 then "not enough memory"
  else if e =? -13 then "permission denied"
  else if e =? -28 then "no space left on device"
  else "unknown error".

#[export] Instance script_libuv : Libuv (list rx_reply) := {|
  rx_submit := script_submit;
  uv_err_name := err_name;
  uv_strerror := err_text
|}.

(** The registry right after a successful [fs_init]. *)
Definition fs_state_ready : fs_module_state_t :=
  mk_fs_state 0 0 0 0 0 0 0 0 MutexUnlocked true.

Definition world0 {R : Type} (r : R) (outcomes : list bool) : world R :=
  mk_world fs_state_ready [] outcomes r [].

(* ===================================================================== *)
(** * A file store behind the reactor *)
(* ===================================================================== *)

(** The reactor and the file system are not part of the repository.  To
    speak of what a read finds after a write they are given a model here:
    regular files as byte strings by path, directories by name, a table of
    open descriptors, and [write_cap], the most bytes a single write call
    takes ([None]: no limit), since POSIX lets a write transfer less than
    it was asked to.  Calls are always accepted and complete in the order
    they are made. *)
Module FileStore.

Record store : Type := mk_store {
  files : gmap string (list byte);
  dirs : gset string;
  fds : gmap Z (string * Z);      (* descriptor -> path, open flags *)
  next_fd : Z;
  write_cap : option nat
}.

Definition UV_ENOENT : Z := -2.
Definition UV_EBADF : Z := -9.
Definition UV_EEXIST : Z := -17.

Definition has_flag (flags f : Z) : bool := negb (Z.land flags f =? 0).

Definition done (res : Z) : rx_reply := mk_rx_reply 0 res (mk_uv_stat 0 0) [].

Definition opened (s : store) (p : string) (content : list byte) (flags : Z) : store :=
  mk_store (<[p := content]> (files s)) (dirs s)
    (<[next_fd s := (p, flags)]> (fds s)) (next_fd s + 1) (write_cap s).

Definition serve (call : uv_call) (s : store) : rx_reply * store :=
  match call with
  | UvFsStat p =>
      match files s !! p with
      | Some c => (mk_rx_reply 0 0 (mk_uv_stat (Z.of_nat (length c)) mode_0644) [], s)
      | None => (done UV_ENOENT, s)
      end
  | UvFsOpen p flags _ =>
      match files s !! p with
      | Some c =>
          (done (next_fd s),
           opened s p (if has_flag flags UV_FS_O_TRUNC then [] else c) flags)
      | None =>
          if has_flag flags UV_FS_O_CREAT
          then (done (next_fd s), opened s p [] flags)
          else (done UV_ENOENT, s)
      end
  | UvFsRead fd len offset =>
      match fds s !! fd with
      | Some (p, _) =>
          let c := default [] (files s !! p) in
          let bytes := take (Z.to_nat len) (drop (Z.to_nat offset) c) in
          (mk_rx_reply 0 (Z.of_nat (length bytes)) (mk_uv_stat 0 0) bytes, s)
      | None => (done UV_EBADF, s)
      end
  | UvFsWrite fd buf offset =>
      match fds s !! fd with
      | Some (p, flags) =>
          if has_flag flags UV_FS_O_WRONLY then
            let c := default [] (files s !! p) in
            let accepted := match write_cap s with
                            | Some k => take k buf
                            | None => buf
                            end in
            let c' := if has_flag flags UV_FS_O_APPEND then c ++ accepted
                      else take (Z.to_nat offset) c ++ accepted
                           ++ drop (Z.to_nat offset + length accepted) c in
            (done (Z.of_nat (length accepted)),
             mk_store (<[p := c']> (files s)) (dirs s) (fds s) (next_fd s)
               (write_cap s))
          else (done UV_EBADF, s)
      | None => (done UV_EBADF, s)
      end
  | UvFsClose fd =>
      match fds s !! fd with
      | Some _ =>
          (done 0,
           mk_store (files s) (dirs s) (delete fd (fds s)) (next_fd s) (write_cap s))
      | None => (done UV_EBADF, s)
      end
  | UvFsUnlink p =>
      match files s !! p with
      | Some _ =>
          (done 0,
           mk_store (delete p (files s)) (dirs s) (fds s) (next_fd s) (write_cap s))
      | None => (done UV_ENOENT, s)
      end
  | UvFsMkdir p _ =>
      if bool_decide (p ∈ dirs s) then (done UV_EEXIST, s)
      else (done 0,
            mk_store (files s) ({[p]} ∪ dirs s) (fds s) (next_fd s) (write_cap s))
  | UvFsRmdir p =>
      if bool_decide (p ∈ dirs s)
      then (done 0,
            mk_store (files s) (dirs s ∖ {[p]}) (fds s) (next_fd s) (write_cap s))
      else (done UV_ENOENT, s)
  | UvFsRename p q =>
      match files s !! p with
      | Some c =>
          (done 0,
           mk_store (<[q := c]> (delete p (files s))) (dirs s) (fds s) (next_fd s)
             (write_cap s))
      | None => (done UV_ENOENT, s)
      end
  end.

#[global] Instance store_libuv : Libuv store := {|
  rx_submit := serve;
  uv_err_name := err_name;
  uv_strerror := err_text
|}.



End FileStore.

(* ===================================================================== *)
(** * Reading traces *)
(* ===================================================================== *)

Fixpoint count (p : event -> bool) (evs : list event) : nat :=
  match evs with
  | [] => O
  | e :: rest => if p e then S (count p rest) else count p rest
  end.

(** The caller's completion callback is invoked. *)
Definition is_callback (e : event) : bool :=
  match e with
  | EvReadCallback _ _ _ _ _ | EvWriteCallback _ _ _ | EvStatCallback _ _ _ _ => true
  | _ => false
  end.

(** A call into libuv's file API. *)
Definition is_issue (e : event) : bool :=
  match e with
  | EvIssue _ _ _ => true
  | _ => false
  end.


Definition callbacks (evs : list event) : nat := count is_callback evs.
Definition issues (evs : list event) : nat := count is_issue evs.

(** The handlers that a handler registers: the later links of a chain. *)
Definition is_chained (cb : uv_fs_cb) : bool :=
  match cb with
  | CbReadOpen | CbReadData | CbReadClose | CbWriteData | CbWriteClose => true
  | _ => false
  end.

(** libuv refuses a call made from inside a handler. *)
Definition chain_refused (e : event) : bool :=
  match e with
  | EvIssue _ (Some cb) r => is_chained cb && (r <? 0)
  | _ => false
  end.

Definition chain_accepted (evs : list event) : bool :=
  forallb (fun e => negb (chain_refused e)) evs.

(** The events a computation adds to the trace. *)
Definition new_events {R A : Type} (m : M R A) (w : world R) : list event :=
  drop (length (trace w)) (trace (snd (m w))).



(** The calls of the public API. *)
Inductive fs_call : Type :=
| CallReadFile (p : option string) (a : option Arena) (callback : option fn_ptr) (ud : Z)
| CallWriteFile (p : option string) (d : option (list byte)) (n : Z)
    (callback : option fn_ptr) (ud : Z)
| CallAppendFile (p : option string) (d : option (list byte)) (n : Z)
    (callback : option fn_ptr) (ud : Z)
| CallStat (p : option string) (callback : option fn_ptr) (ud : Z)
| CallUnlink (p : option string) (callback : option fn_ptr) (ud : Z)
| CallMkdir (p : option string) (callback : option fn_ptr) (ud : Z)
| CallRmdir (p : option string) (callback : option fn_ptr) (ud : Z)
| CallRename (old_path new_path : option string) (callback : option fn_ptr) (ud : Z).

Definition enter {R : Type} {uv : Libuv R} (c : fs_call) : M R Z :=
  match c with
  | CallReadFile p a callback ud => fs_read_file p a callback ud
  | CallWriteFile p d n callback ud => fs_write_file p d n callback ud
  | CallAppendFile p d n callback ud => fs_append_file p d n callback ud
  | CallStat p callback ud => fs_stat p callback ud
  | CallUnlink p callback ud => fs_unlink p callback ud
  | CallMkdir p callback ud => fs_mkdir p callback ud
  | CallRmdir p callback ud => fs_rmdir p callback ud
  | CallRename o n callback ud => fs_rename o n callback ud
  end.

(** The call, then [turns] turns of the event loop. *)
Definition run_call {R : Type} {uv : Libuv R} (c : fs_call) (turns : nat) : M R Z :=
  let* r := enter c in
  run_loop turns ;;
  ret r.

(** The reasons for which an entry point turns a call away before it
    creates a Record: a null argument, a module that is not initialized, no
    free slot, a payload above the size ceiling. *)
Definition null_arguments (c : fs_call) : bool :=
  match c with
  | CallReadFile p _ callback _ | CallStat p callback _ | CallUnlink p callback _
  | CallMkdir p callback _ | CallRmdir p callback _ =>
      negb (bool_decide (is_Some p)) || negb (bool_decide (is_Some callback))
  | CallWriteFile p d _ callback _ | CallAppendFile p d _ callback _ =>
      negb (bool_decide (is_Some p)) || negb (bool_decide (is_Some d))
      || negb (bool_decide (is_Some callback))
  | CallRename o n callback _ =>
      negb (bool_decide (is_Some o)) || negb (bool_decide (is_Some n))
      || negb (bool_decide (is_Some callback))
  end.

Definition oversized (c : fs_call) : bool :=
  match c with
  | CallWriteFile _ _ n _ _ | CallAppendFile _ _ n _ _ => ECEWO_FS_MAX_FILE_SIZE <? n
  | _ => false
  end.

Definition rejected_up_front (c : fs_call) (s : fs_module_state_t) : bool :=
  null_arguments c
  || negb (initialized s)
  || (ECEWO_FS_MAX_CONCURRENT_OPS <=? active_operations s)
  || oversized c.

Definition is_stderr (e : event) : bool :=
  match e with
  | EvStderr _ _ => true
  | _ => false
  end.

(* ===================================================================== *)
(** * Transitions of the admission controller *)
(* ===================================================================== *)

(** The registry changes only through these calls.  An operation begins
    only behind the gate every entry point has in front of
    [fs_begin_operation]: [if (!fs_state.initialized ||
    !fs_can_accept_operation()) return -1;]. *)
Inductive registry_step : fs_module_state_t -> fs_module_state_t -> Prop :=
| step_init (ok : bool) (s : fs_module_state_t) :
    registry_step s (snd (fst (fs_init ok s)))
| step_probe (s : fs_module_state_t) :
    registry_step s (snd (fs_can_accept_operation s))
| step_begin (s : fs_module_state_t) :
    initialized s = true ->
    fst (fs_can_accept_operation s) <> 0 ->
    registry_step s (fs_begin_operation (snd (fs_can_accept_operation s)))
| step_end (s : fs_module_state_t) :
    registry_step s (fs_end_operation s)
| step_record_read (n : Z) (s : fs_module_state_t) :
    registry_step s (fs_record_read n s)
| step_record_write (n : Z) (s : fs_module_state_t) :
    registry_step s (fs_record_write n s)
| step_record_error (s : fs_module_state_t) :
    registry_step s (fs_record_error s)
| step_reset_stats (s : fs_module_state_t) :
    registry_step s (fs_reset_stats s).

Inductive reachable : fs_module_state_t -> Prop :=
| reachable_zero : reachable fs_state_zero
| reachable_step (s s' : fs_module_state_t) :
    reachable s -> registry_step s s' -> reachable s'.

Definition active_in_range (s : fs_module_state_t) : Prop :=
  0 <= active_operations s <= ECEWO_FS_MAX_CONCURRENT_OPS.

(** [a] and [b] agree on everything but [active_operations]. *)
Definition same_but_active (a b : fs_module_state_t) : Prop :=
  peak_operations a = peak_operations b /\
  queued_operations a = queued_operations b /\
  total_reads a = total_reads b /\
  total_writes a = total_writes b /\
  total_bytes_read a = total_bytes_read b /\
  total_bytes_written a = total_bytes_written b /\
  failed_operations a = failed_operations b /\
  initialized a = initialized b.

(* ===================================================================== *)
(** * Vocabulary of the statements *)
(* ===================================================================== *)

(** ** Worlds and replies for the examples *)

(** A registry with two operations in flight, a peak of five, and some
    history. *)
Definition fs_state_busy : fs_module_state_t :=
  mk_fs_state 2 5 0 7 3 4096 512 1 MutexUnlocked true.

Definition reply (ret result : Z) : rx_reply :=
  mk_rx_reply ret result (mk_uv_stat 0 0) [].
Definition reply_stat (size : Z) : rx_reply :=
  mk_rx_reply 0 0 (mk_uv_stat size 420) [].
Definition reply_read (bytes : list byte) : rx_reply :=
  mk_rx_reply 0 (Z.of_nat (length bytes)) (mk_uv_stat 0 0) bytes.

(** A read of the two-byte file "f" into a heap buffer, every step
    succeeding. *)
Definition read_two_bytes : Z * world (list rx_reply) :=
  run_call (CallReadFile (Some "f"%string) None (Some 7) 9) 4
    (world0 [reply_stat 2; reply 0 3; reply_read ["a"; "b"]%byte; reply 0 0] []).

(** ** The wait of [fs_cleanup] *)

(** One round of the wait loop: release the lock, sleep 10 ms, take the
    lock again. *)
Definition wait_round : list lifecycle_event := [LcUnlock; LcSleep 10; LcLock].

Fixpoint wait_rounds (k : nat) : list lifecycle_event :=
  match k with
  | O => []
  | S k' => wait_round ++ wait_rounds k'
  end.


(** ** Kinds of events, and their order *)

Definition is_free (e : event) : bool :=
  match e with
  | EvFree _ => true
  | _ => false
  end.

(** The error argument of a callback event. *)
Definition error_of (e : event) : option (option string) :=
  match e with
  | EvReadCallback _ error _ _ _ | EvWriteCallback _ error _
  | EvStatCallback _ error _ _ => Some error
  | _ => None
  end.



(** A block of [n] bytes is asked of [malloc] or of the arena. *)
Definition is_alloc_of (n : Z) (e : event) : bool :=
  match e with
  | EvAlloc (Malloc m) _ | EvAlloc (ArenaAlloc _ m) _ => m =? n
  | _ => false
  end.

Definition is_open_issue (e : event) : bool :=
  match e with
  | EvIssue (UvFsOpen _ _ _) _ _ => true
  | _ => false
  end.

Definition is_read_issue (e : event) : bool :=
  match e with
  | EvIssue (UvFsRead _ _ _) _ _ => true
  | _ => false
  end.

(** Index of the first event that satisfies [p]. *)
Fixpoint position (p : event -> bool) (evs : list event) : option nat :=
  match evs with
  | [] => None
  | e :: rest => if p e then Some O else S <$> position p rest
  end.

Definition happens_before (p q : event -> bool) (evs : list event) : Prop :=
  exists i j : nat, position p evs = Some i /\ position q evs = Some j /\ (i < j)%nat.

(** Some write callback in [evs] reports success (a null error). *)
Definition write_succeeded (evs : list event) : bool :=
  existsb (fun e => match e with EvWriteCallback _ None _ => true | _ => false end) evs.

(** The buffer and the length a read callback in [evs] gets on success. *)
Fixpoint read_delivered (evs : list event) : option (option (list byte) * Z) :=
  match evs with
  | [] => None
  | EvReadCallback _ None d n _ :: _ => Some (d, n)
  | _ :: rest => read_delivered rest
  end.

(** ** Outcomes of a call and of a completion *)



(** ** A write and a read, run to the end *)

Definition write_run {R : Type} {uv : Libuv R} (p : string) (d : list byte) (n : Z)
    (callback : fn_ptr) (ud flags : Z) (turns : nat) : M R Z :=
  let* r := fs_write_internal (Some p) (Some d) n (Some callback) ud flags in
  run_loop turns ;;
  ret r.

Definition read_run {R : Type} {uv : Libuv R} (p : string) (a : option Arena)
    (callback : fn_ptr) (ud : Z) (turns : nat) : M R Z :=
  let* r := fs_read_file (Some p) a (Some callback) ud in
  run_loop turns ;;
  ret r.



(** ** Memory, statistics and order in a trace *)

(** Blocks the allocator hands out, by kind, and blocks given back. *)
Definition records_allocated (evs : list event) : nat :=
  count (fun e => match e with EvAlloc Calloc true => true | _ => false end) evs.
Definition strings_allocated (evs : list event) : nat :=
  count (fun e => match e with EvAlloc (Strdup _) true => true | _ => false end) evs.
Definition blocks_allocated (evs : list event) : nat :=
  count (fun e => match e with EvAlloc (Malloc _) true => true | _ => false end) evs.
Definition records_freed (evs : list event) : nat :=
  count (fun e => match e with EvFree OwnReq => true | _ => false end) evs.
Definition strings_freed (evs : list event) : nat :=
  count (fun e => match e with EvFree OwnPath | EvFree OwnPath2 => true | _ => false end)
    evs.
Definition blocks_freed (evs : list event) : nat :=
  count (fun e => match e with EvFree OwnErrorMsg | EvFree OwnData => true | _ => false end)
    evs.

(** The heap buffer of a successful read without arena becomes the
    caller's. *)
Definition handed_over (c : fs_call) (evs : list event) : nat :=
  match c with
  | CallReadFile _ None _ _ =>
      match read_delivered evs with
      | Some (Some _, _) => 1
      | _ => 0
      end
  | _ => 0
  end%nat.

(** Some callback in [evs] gets a non-null error. *)
Definition error_reported (evs : list event) : bool :=
  existsb (fun e => match error_of e with Some (Some _) => true | _ => false end) evs.

Definition is_write_call (c : fs_call) : bool :=
  match c with
  | CallWriteFile _ _ _ _ _ | CallAppendFile _ _ _ _ _ => true
  | _ => false
  end.

(** The calls whose handlers fall back on a literal error string. *)
Definition is_chain_call (c : fs_call) : bool :=
  match c with
  | CallReadFile _ _ _ _ | CallWriteFile _ _ _ _ _ | CallAppendFile _ _ _ _ _
  | CallStat _ _ _ => true
  | _ => false
  end.

(** Up to the first callback nothing is freed, and after it nothing
    happens but frees. *)
Fixpoint callback_then_release (evs : list event) : bool :=
  match evs with
  | [] => true
  | e :: rest =>
      if is_callback e then forallb is_free rest
      else negb (is_free e) && callback_then_release rest
  end.

(** What a stat callback in [evs] gets. *)
Fixpoint stat_delivered (evs : list event)
  : option (option string * option uv_stat_t) :=
  match evs with
  | [] => None
  | EvStatCallback _ error st _ :: _ => Some (error, st)
  | _ :: rest => stat_delivered rest
  end.

(** The eight counters of two registries agree. *)
Definition same_counters (a b : fs_module_state_t) : Prop :=
  active_operations a = active_operations b /\
  peak_operations a = peak_operations b /\
  queued_operations a = queued_operations b /\
  total_reads a = total_reads b /\
  total_writes a = total_writes b /\
  total_bytes_read a = total_bytes_read b /\
  total_bytes_written a = total_bytes_written b /\
  failed_operations a = failed_operations b.

(** The three callback types of the API, and what a call asks to be
    called back with: the kind of callback that goes with the entry point,
    the function pointer and the user data. *)
Inductive callback_kind : Type := KindRead | KindWrite | KindStat.

Definition expects (c : fs_call) : callback_kind * option fn_ptr * Z :=
  match c with
  | CallReadFile _ _ callback ud => (KindRead, callback, ud)
  | CallStat _ callback ud => (KindStat, callback, ud)
  | CallWriteFile _ _ _ callback ud | CallAppendFile _ _ _ callback ud
  | CallUnlink _ callback ud | CallMkdir _ callback ud | CallRmdir _ callback ud
  | CallRename _ _ callback ud => (KindWrite, callback, ud)
  end.

Definition invoked (e : event) : option (callback_kind * option fn_ptr * Z) :=
  match e with
  | EvReadCallback fn _ _ _ ud => Some (KindRead, Some fn, ud)
  | EvWriteCallback fn _ ud => Some (KindWrite, Some fn, ud)
  | EvStatCallback fn _ _ ud => Some (KindStat, Some fn, ud)
  | _ => None
  end.

(** Every callback in [evs] is the one the call [c] named, with its user
    data. *)
Definition callers_own (c : fs_call) (evs : list event) : Prop :=
  Forall (fun e => forall k, invoked e = Some k -> k = expects c) evs.

(** Every error string handed to a callback in [evs] fits the 256 bytes
    of [make_error_msg] with its NUL. *)
Definition errors_bounded (evs : list event) : Prop :=
  Forall (fun e => forall msg : string,
            error_of e = Some (Some msg) -> (String.length msg <= 255)%nat) evs.

(** The first request made of libuv in [evs], with its handler. *)
Fixpoint first_issue (evs : list event) : option (uv_call * option uv_fs_cb) :=
  match evs with
  | [] => None
  | EvIssue call cb _ :: _ => Some (call, cb)
  | _ :: rest => first_issue rest
  end.

(** The request an entry point starts its operation with. *)
Definition first_request (c : fs_call) : option (uv_call * option uv_fs_cb) :=
  match c with
  | CallReadFile (Some p) _ _ _ => Some (UvFsStat p, Some CbReadStat)
  | CallWriteFile (Some p) _ _ _ _ =>
      Some (UvFsOpen p (Z.lor (Z.lor UV_FS_O_WRONLY UV_FS_O_CREAT) UV_FS_O_TRUNC)
              mode_0644, Some CbWriteOpen)
  | CallAppendFile (Some p) _ _ _ _ =>
      Some (UvFsOpen p (Z.lor (Z.lor UV_FS_O_WRONLY UV_FS_O_CREAT) UV_FS_O_APPEND)
              mode_0644, Some CbWriteOpen)
  | CallStat (Some p) _ _ => Some (UvFsStat p, Some CbStat)
  | CallUnlink (Some p) _ _ => Some (UvFsUnlink p, Some CbSimpleOp)
  | CallMkdir (Some p) _ _ => Some (UvFsMkdir p mode_0755, Some CbSimpleOp)
  | CallRmdir (Some p) _ _ => Some (UvFsRmdir p, Some CbSimpleOp)
  | CallRename (Some o) (Some n) _ _ => Some (UvFsRename o n, Some CbRename)
  | _ => None
  end.

(** The descriptors closed in [evs], in order. *)
Fixpoint closed_files (evs : list event) : list Z :=
  match evs with
  | [] => []
  | EvIssue (UvFsClose f) _ _ :: rest => f :: closed_files rest
  | _ :: rest => closed_files rest
  end.

(** The four 64-bit totals are within their type. *)
Definition totals_in_range (s : fs_module_state_t) : Prop :=
  0 <= total_reads s < 2 ^ 64 /\ 0 <= total_writes s < 2 ^ 64 /\
  0 <= total_bytes_read s < 2 ^ 64 /\ 0 <= total_bytes_written s < 2 ^ 64.

(** What a call, run to the end, does to the registry and to memory. *)
Definition run_facts (c : fs_call) (st st' : fs_module_state_t) (evs : list event)
  : Prop :=
  (0 <= active_operations st < 2 ^ 31 - 1 -> chain_accepted evs = true ->
     active_operations st' = active_operations st) /\
  (chain_accepted evs = true ->
     records_allocated evs = records_freed evs /\
     strings_allocated evs = strings_freed evs /\
     blocks_allocated evs = (blocks_freed evs + handed_over c evs)%nat) /\
  (queued_operations st' = queued_operations st /\ initialized st' = initialized st) /\
  (total_reads st' = match read_delivered evs with
                     | Some _ => u64_wrap (total_reads st + 1)
                     | None => total_reads st
                     end /\
   total_bytes_read st' = match read_delivered evs with
                          | Some (_, n) => u64_wrap (total_bytes_read st + n)
                          | None => total_bytes_read st
                          end) /\
  (total_writes st' = if is_write_call c && write_succeeded evs
                      then u64_wrap (total_writes st + 1) else total_writes st) /\
  (is_write_call c && write_succeeded evs = false ->
     total_bytes_written st' = total_bytes_written st) /\
  (error_reported evs = true ->
     failed_operations st' = int_wrap (failed_operations st + 1)) /\
  (callbacks evs = 0%nat -> failed_operations st' = failed_operations st) /\
  (is_chain_call c = true -> error_reported evs = false ->
     failed_operations st' = failed_operations st) /\
  (issues evs = 0%nat -> same_counters st' st) /\
  (issues evs <> 0%nat -> 0 <= active_operations st < 2 ^ 31 - 1 ->
     peak_operations st' = Z.max (peak_operations st) (active_operations st + 1)) /\
  (callbacks evs <= 1)%nat /\
  (callbacks evs <> 0%nat -> callback_then_release evs = true) /\
  callers_own c evs /\
  errors_bounded evs /\
  (issues evs <> 0%nat -> first_issue evs = first_request c).

(** The registry after the reads, or the writes, of the given byte counts
    have been recorded one after the other. *)
Definition record_reads (sizes : list Z) (s : fs_module_state_t) : fs_module_state_t :=
  fold_left (fun acc n => fs_record_read n acc) sizes s.
Definition record_writes (sizes : list Z) (s : fs_module_state_t) : fs_module_state_t :=
  fold_left (fun acc n => fs_record_write n acc) sizes s.

Fixpoint total (sizes : list Z) : Z :=
  match sizes with
  | [] => 0
  | n :: rest => n + total rest
  end.

Definition append_file_call (p : string) (d : list byte) (callback : fn_ptr) (ud : Z)
  : fs_call :=
  CallAppendFile (Some p) (Some d) (Z.of_nat (length d)) (Some callback) ud.

(** ** More examples *)

(** A read whose open is refused with EACCES. *)
Definition read_denied : fs_call * world (list rx_reply) :=
  (CallReadFile (Some "f"%string) None (Some 7) 9,
   world0 [reply_stat 2; reply 0 (-13)] []).

(** A write of two bytes on which every step succeeds. *)
Definition write_two_bytes : fs_call * world (list rx_reply) :=
  (CallWriteFile (Some "f"%string) (Some ["a"; "b"]%byte) 2 (Some 7) 9,
   world0 [reply 0 3; reply 0 2; reply 0 0] []).

(** A read of two bytes on which every step succeeds. *)
Definition read_two : fs_call * world (list rx_reply) :=
  (CallReadFile (Some "f"%string) None (Some 7) 9,
   world0 [reply_stat 2; reply 0 3; reply_read ["a"; "b"]%byte; reply 0 0] []).

(** A stat on a registry with every slot taken. *)
Definition stat_when_full : fs_call * world (list rx_reply) :=
  (CallStat (Some "f"%string) (Some 7) 9,
   mk_world (with_active 100 fs_state_busy) [] [] [] []).

(* ===================================================================== *)
(** * Properties of the registry *)
(* ===================================================================== *)

Lemma int_wrap_small (z : Z) : - 2 ^ 31 <= z < 2 ^ 31 -> int_wrap z = z.
Proof.
  intros Hz. unfold int_wrap.
  rewrite Z.mod_small by lia. lia.
Qed.

Lemma can_accept_state (s : fs_module_state_t) :
  active_operations (snd (fs_can_accept_operation s)) = active_operations s /\
  peak_operations (snd (fs_can_accept_operation s)) = peak_operations s /\
  initialized (snd (fs_can_accept_operation s)) = initialized s.
Proof.
  unfold fs_can_accept_operation.
  destruct (initialized s) eqn:Hi; simpl; auto.
Qed.

Lemma gate_open_below_ceiling (s : fs_module_state_t) :
  initialized s = true ->
  fst (fs_can_accept_operation s) <> 0 ->
  active_operations s < ECEWO_FS_MAX_CONCURRENT_OPS.
Proof.
  unfold fs_can_accept_operation. intros -> Hne. simpl in Hne.
  destruct (Z.ltb_spec (active_operations s) ECEWO_FS_MAX_CONCURRENT_OPS) as [Hlt|Hge];
    [exact Hlt | exfalso; apply Hne; reflexivity].
Qed.

Lemma begin_active (s : fs_module_state_t) :
  active_operations (fs_begin_operation s) = int_wrap (active_operations s + 1).
Proof.
  unfold fs_begin_operation. simpl.
  destruct (peak_operations s <? int_wrap (active_operations s + 1)); reflexivity.
Qed.

Lemma begin_peak (s : fs_module_state_t) :
  peak_operations (fs_begin_operation s) =
  Z.max (peak_operations s) (int_wrap (active_operations s + 1)).
Proof.
  unfold fs_begin_operation. simpl.
  destruct (Z.ltb_spec (peak_operations s) (int_wrap (active_operations s + 1)));
    simpl; lia.
Qed.

Lemma end_active (s : fs_module_state_t) :
  0 <= active_operations s < 2 ^ 31 ->
  active_operations (fs_end_operation s) = Z.max 0 (active_operations s - 1).
Proof.
  intros Hr. unfold fs_end_operation. simpl.
  destruct (Z.ltb_spec 0 (active_operations s)); simpl.
  - rewrite int_wrap_small by lia. lia.
  - lia.
Qed.

Lemma end_frame (s : fs_module_state_t) : same_but_active (fs_end_operation s) s.
Proof.
  unfold fs_end_operation, same_but_active. simpl.
  destruct (0 <? active_operations s); simpl; repeat split; reflexivity.
Qed.

Lemma step_keeps_range (s s' : fs_module_state_t) :
  registry_step s s' -> active_in_range s -> active_in_range s'.
Proof.
  unfold active_in_range, ECEWO_FS_MAX_CONCURRENT_OPS.
  intros Hstep Hr. destruct Hstep as [ok s|s|s Hi Hgate|s|n s|n s|s|s].
  - unfold fs_init. destruct (initialized s); [exact Hr|].
    destruct ok; simpl; exact Hr.
  - destruct (can_accept_state s) as (-> & _ & _). exact Hr.
  - pose proof (gate_open_below_ceiling s Hi Hgate) as Hlt.
    unfold ECEWO_FS_MAX_CONCURRENT_OPS in Hlt.
    destruct (can_accept_state s) as (Ha & _ & _).
    rewrite begin_active, Ha, int_wrap_small by lia. lia.
  - rewrite end_active by lia. lia.
  - exact Hr.
  - exact Hr.
  - exact Hr.
  - unfold fs_reset_stats. destruct (initialized s); simpl; exact Hr.
Qed.

Lemma reachable_in_range (s : fs_module_state_t) : reachable s -> active_in_range s.
Proof.
  induction 1 as [|s s' _ IH Hstep].
  - unfold active_in_range, ECEWO_FS_MAX_CONCURRENT_OPS. simpl. lia.
  - exact (step_keeps_range s s' Hstep IH).
Qed.

Lemma reachable_unlocked (s : fs_module_state_t) :
  reachable s -> initialized s = true -> mutex s = MutexUnlocked.
Proof.
  induction 1 as [|s s' _ IH Hstep]; [discriminate|].
  destruct Hstep as [ok s|s|s Hi Hgate|s|n s|n s|s|s].
  - unfold fs_init. destruct (initialized s) eqn:Hi; [intros _; apply IH; reflexivity|].
    destruct ok; simpl; [reflexivity | rewrite Hi; discriminate].
  - unfold fs_can_accept_operation. destruct (initialized s) eqn:Hi; simpl;
      [reflexivity | rewrite Hi; discriminate].
  - intros _. reflexivity.
  - intros _. reflexivity.
  - intros _. reflexivity.
  - intros _. reflexivity.
  - intros _. reflexivity.
  - unfold fs_reset_stats. destruct (initialized s) eqn:Hi; simpl; [reflexivity|].
    rewrite Hi. discriminate.
Qed.

(** C2.  In every state reachable through the transitions of the admission
    controller the active count lies between 0 and
    ECEWO_FS_MAX_CONCURRENT_OPS.  From such a state an operation is let in
    only when the count is strictly below the ceiling; it then rises by one,
    stays within the ceiling, and the peak becomes the larger of the old
    peak and the new count.  Releasing lowers the count by one but not below
    0 and changes no other counter. *)
Theorem admission_controller_invariant (s : fs_module_state_t) :
  reachable s ->
  active_in_range s /\
  (initialized s = true -> fst (fs_can_accept_operation s) <> 0 ->
     let s' := fs_begin_operation (snd (fs_can_accept_operation s)) in
     active_operations s < ECEWO_FS_MAX_CONCURRENT_OPS /\
     active_operations s' = active_operations s + 1 /\
     active_operations s' <= ECEWO_FS_MAX_CONCURRENT_OPS /\
     peak_operations s' = Z.max (peak_operations s) (active_operations s + 1)) /\
  (initialized s = true -> ECEWO_FS_MAX_CONCURRENT_OPS <= active_operations s ->
     fs_can_accept_operation s = (0, s)) /\
  active_operations (fs_end_operation s) = Z.max 0 (active_operations s - 1) /\
  same_but_active (fs_end_operation s) s.
Proof.
  intros Hreach. pose proof (reachable_in_range s Hreach) as Hr.
  unfold active_in_range, ECEWO_FS_MAX_CONCURRENT_OPS in Hr.
  split; [exact (reachable_in_range s Hreach)|].
  split; [|split; [|split]].
  - intros Hi Hgate s'.
    pose proof (gate_open_below_ceiling s Hi Hgate) as Hlt.
    destruct (can_accept_state s) as (Ha & Hp & _).
    unfold ECEWO_FS_MAX_CONCURRENT_OPS in *. subst s'.
    rewrite begin_active, begin_peak, Ha, Hp, int_wrap_small by lia. lia.
  - intros Hi Hfull. unfold fs_can_accept_operation. rewrite Hi. simpl.
    destruct (Z.ltb_spec (active_operations s) ECEWO_FS_MAX_CONCURRENT_OPS); [lia|].
    simpl. f_equal. unfold uv_mutex_unlock, uv_mutex_lock, with_mutex. simpl.
    rewrite <- (reachable_unlocked s Hreach Hi). destruct s; reflexivity.
  - apply end_active. lia.
  - apply end_frame.
Qed.

Lemma admission_controller_invariant_witness :
  let s := fs_begin_operation fs_state_ready in
  active_operations s = 1 /\ active_in_range s.
Proof.
  split; [reflexivity|].
  apply (admission_controller_invariant (fs_begin_operation fs_state_ready)).
  apply (reachable_step (snd (fst (fs_init true fs_state_zero)))).
  - apply (reachable_step fs_state_zero); [apply reachable_zero | apply step_init].
  - apply (step_begin (snd (fst (fs_init true fs_state_zero)))).
    + reflexivity.
    + simpl. discriminate.
Defined.

(** ** [fs_reset_stats] *)

(** C4, as stated, fails: on [fs_state_busy] the reset leaves the active
    count at 2 but takes the peak from 5 to 0. *)
Lemma reset_stats_clears_peak :
  let s' := fs_reset_stats fs_state_busy in
  ~ (total_reads s' = 0 /\ total_writes s' = 0 /\
     total_bytes_read s' = 0 /\ total_bytes_written s' = 0 /\
     failed_operations s' = 0 /\
     active_operations s' = active_operations fs_state_busy /\
     peak_operations s' = peak_operations fs_state_busy).
Proof.
  simpl. intros (_ & _ & _ & _ & _ & _ & Hpeak). discriminate Hpeak.
Qed.

(** C4, amended.  On an initialized module [fs_reset_stats] zeroes the five
    cumulative counters and the peak, and leaves the active count, the
    queued count and the initialized flag as they were.  On a module that
    is not initialized it changes nothing. *)
Theorem reset_stats_effect (s : fs_module_state_t) :
  (initialized s = true ->
   let s' := fs_reset_stats s in
   total_reads s' = 0 /\ total_writes s' = 0 /\
   total_bytes_read s' = 0 /\ total_bytes_written s' = 0 /\
   failed_operations s' = 0 /\
   peak_operations s' = 0 /\
   active_operations s' = active_operations s /\
   queued_operations s' = queued_operations s /\
   initialized s' = true) /\
  (initialized s = false -> fs_reset_stats s = s).
Proof.
  unfold fs_reset_stats. split; intros Hi; rewrite Hi; simpl.
  - repeat split; try reflexivity. exact Hi.
  - reflexivity.
Qed.

Lemma reset_stats_effect_witness :
  initialized fs_state_busy = true /\
  peak_operations (fs_reset_stats fs_state_busy) = 0 /\
  active_operations (fs_reset_stats fs_state_busy) = 2 /\
  fs_reset_stats (with_initialized false fs_state_busy)
  = with_initialized false fs_state_busy.
Proof.
  split; [reflexivity|].
  destruct (proj1 (reset_stats_effect fs_state_busy) eq_refl)
    as (_ & _ & _ & _ & _ & Hp & Ha & _).
  split; [exact Hp | split; [exact Ha|]].
  apply (reset_stats_effect (with_initialized false fs_state_busy)). reflexivity.
Defined.

(** ** [fs_can_accept_operation] *)

(** C9.  [fs_can_accept_operation] returns -1 when the module is not
    initialized, 1 when the active count is below the ceiling and 0 when the
    ceiling is reached; on an initialized module a non-zero return thus
    means there is room, where the header promises 0 for room and -1 for
    the limit. *)
Theorem can_accept_operation_values (s : fs_module_state_t) :
  (initialized s = false -> fst (fs_can_accept_operation s) = -1) /\
  (initialized s = true ->
     active_operations s < ECEWO_FS_MAX_CONCURRENT_OPS ->
     fst (fs_can_accept_operation s) = 1) /\
  (initialized s = true ->
     ECEWO_FS_MAX_CONCURRENT_OPS <= active_operations s ->
     fst (fs_can_accept_operation s) = 0) /\
  (initialized s = true ->
     (fst (fs_can_accept_operation s) <> 0 <->
      active_operations s < ECEWO_FS_MAX_CONCURRENT_OPS)).
Proof.
  unfold fs_can_accept_operation.
  destruct (initialized s); simpl;
    destruct (Z.ltb_spec (active_operations s) ECEWO_FS_MAX_CONCURRENT_OPS);
    simpl; repeat split; intros; try reflexivity; try discriminate; try lia.
Qed.

Lemma can_accept_operation_values_witness :
  fst (fs_can_accept_operation fs_state_zero) = -1 /\
  fst (fs_can_accept_operation fs_state_busy) = 1 /\
  fst (fs_can_accept_operation (with_active 100 fs_state_busy)) = 0.
Proof.
  split; [|split].
  - apply (can_accept_operation_values fs_state_zero). reflexivity.
  - apply (can_accept_operation_values fs_state_busy); [reflexivity|].
    unfold ECEWO_FS_MAX_CONCURRENT_OPS. simpl. lia.
  - apply (can_accept_operation_values (with_active 100 fs_state_busy));
      [reflexivity|].
    unfold ECEWO_FS_MAX_CONCURRENT_OPS. simpl. lia.
Defined.

(** ** [fs_get_stats] *)

(** C10.  With a null output pointer, or while the module is not
    initialized, [fs_get_stats] writes nothing: the caller's struct and the
    registry are returned as they were passed. *)
Theorem get_stats_guard (stats : option fs_stats_t) (s : fs_module_state_t) :
  stats = None \/ initialized s = false ->
  fs_get_stats stats s = (stats, s).
Proof.
  intros [-> | Hi]; [reflexivity|].
  unfold fs_get_stats. destruct stats; [|reflexivity].
  rewrite Hi. reflexivity.
Qed.

Lemma get_stats_guard_witness :
  fs_get_stats None fs_state_busy = (None, fs_state_busy) /\
  fs_get_stats (Some (mk_fs_stats 9 9 9 9 9 9 9 9)) fs_state_zero
  = (Some (mk_fs_stats 9 9 9 9 9 9 9 9), fs_state_zero).
Proof.
  split.
  - apply (get_stats_guard None fs_state_busy). left. reflexivity.
  - apply (get_stats_guard (Some (mk_fs_stats 9 9 9 9 9 9 9 9)) fs_state_zero).
    right. reflexivity.
Defined.

(** Otherwise all eight fields are copied. *)
Lemma get_stats_snapshot (old : fs_stats_t) (s : fs_module_state_t) :
  initialized s = true ->
  fst (fs_get_stats (Some old) s) =
  Some (mk_fs_stats (active_operations s) (peak_operations s)
          (queued_operations s) (total_reads s) (total_writes s)
          (total_bytes_read s) (total_bytes_written s) (failed_operations s)).
Proof. intros Hi. unfold fs_get_stats. rewrite Hi. reflexivity. Qed.

(** ** [fs_cleanup] *)




Arguments fs_cleanup_wait : simpl never.



Lemma cleanup_stuck_operations :
  fs_cleanup (fun _ st => st) fs_state_busy =
  (mk_fs_state 2 5 0 7 3 4096 512 1 MutexDestroyed false,
   LcLock :: wait_rounds 100 ++
   [LcStderr "[ecewo-fs] Warning: %d operations still active during cleanup\n" [2];
    LcUnlock; LcDestroy]).
Proof. vm_compute. reflexivity. Qed.

Lemma cleanup_uninitialized (others : nat -> fs_module_state_t -> fs_module_state_t)
    (s : fs_module_state_t) :
  initialized s = false -> fs_cleanup others s = (s, []).
Proof. intros Hi. unfold fs_cleanup. rewrite Hi. reflexivity. Qed.

(* ===================================================================== *)
(** * Exactly one callback *)
(* ===================================================================== *)



Lemma new_events_spec {R A : Type} (m : M R A) (w : world R) (evs : list event) :
  trace (snd (m w)) = trace w ++ evs -> new_events m w = evs.
Proof. intros H. unfold new_events. rewrite H. apply drop_app_length. Qed.

(** Symbolic execution of the engine: unfold the monad, then split on the
    innermost scrutinee until none is left. *)
Ltac unfold_engine :=
  unfold dispatch, read_stat_cb, read_open_cb, read_data_cb, read_close_cb,
    write_open_cb, write_data_cb, write_close_cb, stat_cb, simple_op_cb, rename_cb,
    fs_request_cleanup, make_error_msg, uv_fs_stat, uv_fs_open, uv_fs_read,
    uv_fs_write, uv_fs_close, uv_fs_req_cleanup, call_read, call_write, call_stat,
    when, submit, submit_sync, alloc, registry, registry_get, read_state, emit,
    bind, ret in *.

Ltac unfold_entries :=
  unfold enter, fs_read_file, fs_write_file, fs_append_file, fs_write_internal,
    fs_stat, fs_unlink, fs_mkdir, fs_rmdir, fs_simple_op, fs_simple_op_mode,
    fs_rename, fs_can_accept_operation in *.

Ltac split_innermost x :=
  lazymatch x with
  | context [match ?y with _ => _ end] => split_innermost y
  | run_loop _ _ => fail
  | _ => destruct x eqn:?
  end.

Ltac split_once :=
  match goal with
  | |- context [match ?x with _ => _ end] => split_innermost x
  end.

Ltac run_engine := repeat (split_once; cbn).

Section ExactlyOnce.
Context {R : Type} {uv : Libuv R}.


Lemma run_loop_idle (turns : nat) (w : world R) :
  pending w = [] -> run_loop turns w = (tt, w).
Proof.
  intros Hp. induction turns as [|k IH]; [reflexivity|].
  simpl. unfold bind, deliver. rewrite Hp. exact IH.
Qed.

Lemma run_loop_next (k : nat) (w : world R) (cb : uv_fs_cb) (req : fs_request_t) :
  pending w = [(cb, req)] ->
  run_loop (S k) w =
  run_loop k (snd (dispatch cb req
                     (mk_world (fs_state w) (trace w) (allocs w) (reactor w) []))).
Proof.
  intros Hp. cbn [run_loop]. unfold bind, deliver. rewrite Hp.
  destruct (dispatch cb req _) as [[] w1]. reflexivity.
Qed.



Lemma count_disjoint (p q : event -> bool) (evs : list event) :
  (forall e, q e = true -> p e = false) ->
  forallb q evs = true -> count p evs = 0%nat.
Proof.
  intros Hp. induction evs as [|e evs IH]; simpl; [reflexivity|].
  intros Hall. apply andb_prop in Hall as [He Hrest].
  rewrite (Hp e He). exact (IH Hrest).
Qed.

(** A call turned away up front prints at most a diagnostic: it returns -1
    without touching the allocator or the reactor. *)
Lemma rejected_up_front_quiet (c : fs_call) (w : world R) :
  rejected_up_front c (fs_state w) = true ->
  fst (enter c w) = -1 /\
  allocs (snd (enter c w)) = allocs w /\
  reactor (snd (enter c w)) = reactor w /\
  pending (snd (enter c w)) = pending w /\
  exists evs : list event,
    trace (snd (enter c w)) = trace w ++ evs /\ forallb is_stderr evs = true.
Proof.
  destruct w as [st tr al rx pd]. unfold rejected_up_front, null_arguments, oversized.
  cbn [fs_state]. rewrite Z.leb_antisym. intros Hrej.
  destruct c; unfold_entries; unfold_engine; cbn.
  all: run_engine.
  all: try congruence.
  all: repeat match goal with
       | H : _ = _ |- _ =>
           tryif constr_eq H Hrej then fail else rewrite H in Hrej
       end; cbn in Hrej; try discriminate Hrej.
  all: repeat match goal with
       | H : context [Z.ltb ?a ?b] |- _ => destruct (Z.ltb a b); cbn in *; try congruence
       end.
  all: repeat split; try reflexivity.
  all: try (exists []; rewrite app_nil_r; split; reflexivity).
  all: eexists; split; reflexivity.
Qed.


End ExactlyOnce.



Lemma path_copy_failure_trace :
  run_call (CallReadFile (Some "f"%string) None (Some 7) 9) 4
    (world0 ([] : list rx_reply) [true; false])
  = (-1, mk_world (mk_fs_state 0 0 0 0 0 0 0 0 MutexUnlocked true)
           [EvAlloc Calloc true; EvAlloc (Strdup "f") false; EvFree OwnReq]
           [] [] []).
Proof. vm_compute. reflexivity. Qed.

(** What the amended C1 leaves out: libuv refuses the [uv_fs_open] that
    [read_stat_cb] makes, whose return value is not looked at.  No
    completion follows, the callback is never invoked and the slot stays
    taken. *)
Lemma refused_chain_call_stalls :
  run_call (CallReadFile (Some "f"%string) None (Some 7) 9) 4
    (world0 [reply_stat 2; reply (-12) 0] [])
  = (0, mk_world (mk_fs_state 1 1 0 0 0 0 0 0 MutexUnlocked true)
          [EvAlloc Calloc true; EvAlloc (Strdup "f") true;
           EvIssue (UvFsStat "f") (Some CbReadStat) 0; EvReqCleanup;
           EvIssue (UvFsOpen "f" 0 0) (Some CbReadOpen) (-12)]
          [] [] []).
Proof. vm_compute. reflexivity. Qed.

(* ===================================================================== *)
(** * The size ceiling *)
(* ===================================================================== *)

Section SizeCeiling.
Context {R : Type} {uv : Libuv R}.

(** C3.  When the stat of a Read reports a size above
    ECEWO_FS_MAX_FILE_SIZE, the stat handler invokes the callback with
    "File too large", no data and length 0, counts a failed operation and
    frees the Record: it makes no reactor call, so no open is issued and
    nothing stays pending.  A Write or Append whose payload is above the
    ceiling returns -1 having printed a diagnostic at most: no allocation
    (so no Record), no reactor call, no callback.  Neither delivers nor
    writes a shortened payload. *)
Theorem size_ceiling_enforced (req : fs_request_t) (fn : fn_ptr) (w : world R)
    (p : option string) (d : option (list byte)) (n : Z)
    (callback : option fn_ptr) (ud : Z) (w2 : world R) :
  (0 <= result (fs_req req) ->
   ECEWO_FS_MAX_FILE_SIZE < size_wrap (st_size (statbuf (fs_req req))) ->
   read_callback req = Some fn ->
   let w' := snd (read_stat_cb req w) in
   (exists frees : list event,
      trace w' = trace w ++
        EvReqCleanup ::
        EvReadCallback fn (Some "File too large"%string) None 0 (user_data req) ::
        frees /\
      forallb is_free frees = true) /\
   issues (new_events (read_stat_cb req) w) = 0%nat /\
   reactor w' = reactor w /\
   pending w' = pending w /\
   failed_operations (fs_state w') = int_wrap (failed_operations (fs_state w) + 1)) /\
  (ECEWO_FS_MAX_FILE_SIZE < n ->
   forall c : fs_call,
     c = CallWriteFile p d n callback ud \/ c = CallAppendFile p d n callback ud ->
     fst (enter c w2) = -1 /\
     allocs (snd (enter c w2)) = allocs w2 /\
     reactor (snd (enter c w2)) = reactor w2 /\
     pending (snd (enter c w2)) = pending w2 /\
     exists evs : list event,
       trace (snd (enter c w2)) = trace w2 ++ evs /\ forallb is_stderr evs = true).
Proof.
  split.
  - intros Hres Hbig Hfn w'.
    assert (Htrace : exists frees : list event,
               trace w' = trace w ++
                 EvReqCleanup ::
                 EvReadCallback fn (Some "File too large"%string) None 0 (user_data req) ::
                 frees /\
               forallb is_free frees = true /\
               reactor w' = reactor w /\ pending w' = pending w /\
               failed_operations (fs_state w')
                 = int_wrap (failed_operations (fs_state w) + 1)).
    { subst w'. destruct w as [st tr al rx pd].
      unfold read_stat_cb.
      destruct (Z.ltb_spec (result (fs_req req)) 0) as [Hneg|_]; [lia|].
      cbn [file_size with_file_size].
      destruct (Z.ltb_spec ECEWO_FS_MAX_FILE_SIZE
                  (size_wrap (st_size (statbuf (fs_req req))))) as [_|Hsmall]; [|lia].
      unfold_engine. cbn. rewrite Hfn. cbn.
      run_engine.
      all: rewrite <- ?app_assoc; cbn.
      all: eexists; split; [reflexivity|]; repeat split; reflexivity. }
    destruct Htrace as (frees & Htr & Hfrees & Hrx & Hpd & Hfailed).
    split; [exists frees; split; assumption|].
    split; [|repeat split; assumption].
    rewrite (new_events_spec _ _ _ Htr). unfold issues. cbn.
    apply (count_disjoint is_issue is_free); [|exact Hfrees].
    intros e He. destruct e; try discriminate He; reflexivity.
  - intros Hbig c Hc. apply rejected_up_front_quiet.
    unfold rejected_up_front.
    assert (Hover : oversized c = true).
    { destruct Hc as [-> | ->]; simpl; apply Z.ltb_lt; exact Hbig. }
    rewrite Hover. apply orb_true_r.
Qed.

End SizeCeiling.

Lemma size_ceiling_enforced_witness :
  let req := with_read_callback (Some 7)
               (with_fs_req (mk_uv_fs 0 (mk_uv_stat (200 * 1024 * 1024) 420))
                  fs_request_zero) in
  let w := world0 ([] : list rx_reply) [] in
  let big := ECEWO_FS_MAX_FILE_SIZE + 1 in
  issues (new_events (read_stat_cb req) w) = 0%nat /\
  fst (enter (CallWriteFile (Some "f"%string) (Some []) big (Some 7) 9) w) = -1.
Proof.
  intros req w big.
  destruct (size_ceiling_enforced req 7 w (Some "f"%string) (Some []) big (Some 7) 9 w)
    as [Hread Hwrite].
  split.
  - apply Hread; [simpl; lia | vm_compute; reflexivity | reflexivity].
  - apply Hwrite; [unfold big; lia | left; reflexivity].
Defined.

(** A read of a file of 200 MiB, from the call to the end. *)
Lemma read_too_large_trace :
  run_call (CallReadFile (Some "big"%string) None (Some 7) 9) 4
    (world0 [reply_stat (200 * 1024 * 1024)] [])
  = (0, mk_world (mk_fs_state 0 1 0 0 0 0 0 1 MutexUnlocked true)
          [EvAlloc Calloc true; EvAlloc (Strdup "big") true;
           EvIssue (UvFsStat "big") (Some CbReadStat) 0; EvReqCleanup;
           EvReadCallback 7 (Some "File too large"%string) None 0 9;
           EvFree OwnPath; EvFree OwnReq]
          [] [] []).
Proof. vm_compute. reflexivity. Qed.

(* ===================================================================== *)
(** * The error string handed to the callback *)
(* ===================================================================== *)

Section ErrorString.
Context {R : Type} {uv : Libuv R}.


(** [simple_op_cb] and [rename_cb] pass [req->error_msg] on as it is: when
    the allocation in [make_error_msg] fails the callback of a failed
    operation gets NULL, which is how success is reported. *)
Lemma simple_op_cb_null_error (cb : uv_fs_cb) (req : fs_request_t) (fn : fn_ptr)
    (w : world R) :
  cb = CbSimpleOp \/ cb = CbRename ->
  result (fs_req req) < 0 ->
  write_callback req = Some fn ->
  hd true (allocs w) = false ->
  exists frees : list event,
    trace (snd (dispatch cb req w)) =
      trace w ++ EvAlloc (Malloc 256) false :: EvReqCleanup ::
                 EvWriteCallback fn None (user_data req) :: frees /\
    forallb is_free frees = true /\
    failed_operations (fs_state (snd (dispatch cb req w)))
      = int_wrap (failed_operations (fs_state w) + 1).
Proof.
  intros Hcb Hneg Hfn Hal. apply Z.ltb_lt in Hneg.
  destruct w as [st tr al rx pd]. cbn [allocs] in Hal.
  destruct Hcb as [-> | ->]; unfold_engine; rewrite Hneg; cbn;
    rewrite ?Hal, ?Hfn; cbn.
  all: run_engine.
  all: try congruence.
  all: simplify_eq.
  all: rewrite <- ?app_assoc; cbn.
  all: eexists; split; [reflexivity|]; split; reflexivity.
Qed.

End ErrorString.

(** C5, on the code.  An unlink fails with ENOENT and the [malloc] inside
    [make_error_msg] returns NULL: the failure is counted, and the callback
    is invoked with a null error.  The same happens in [rename_cb]. *)
Theorem simple_op_error_lost :
  run_call (CallUnlink (Some "gone"%string) (Some 7) 9) 1
    (world0 [reply 0 (-2)] [true; true; false])
  = (0, mk_world (mk_fs_state 0 1 0 0 0 0 0 1 MutexUnlocked true)
          [EvAlloc Calloc true; EvAlloc (Strdup "gone") true;
           EvIssue (UvFsUnlink "gone") (Some CbSimpleOp) 0;
           EvAlloc (Malloc 256) false; EvReqCleanup;
           EvWriteCallback 7 None 9;
           EvFree OwnPath; EvFree OwnReq]
          [] [] [])
  /\
  run_call (CallRename (Some "a"%string) (Some "b"%string) (Some 7) 9) 1
    (world0 [reply 0 (-2)] [true; true; true; false])
  = (0, mk_world (mk_fs_state 0 1 0 0 0 0 0 1 MutexUnlocked true)
          [EvAlloc Calloc true; EvAlloc (Strdup "a") true; EvAlloc (Strdup "b") true;
           EvIssue (UvFsRename "a" "b") (Some CbRename) 0;
           EvAlloc (Malloc 256) false; EvReqCleanup;
           EvWriteCallback 7 None 9;
           EvFree OwnPath; EvFree OwnPath2; EvFree OwnReq]
          [] [] []).
Proof. split; vm_compute; reflexivity. Qed.

(** With memory for the message the same failure is reported. *)
Lemma simple_op_error_reported :
  run_call (CallUnlink (Some "gone"%string) (Some 7) 9) 1
    (world0 [reply 0 (-2)] [])
  = (0, mk_world (mk_fs_state 0 1 0 0 0 0 0 1 MutexUnlocked true)
          [EvAlloc Calloc true; EvAlloc (Strdup "gone") true;
           EvIssue (UvFsUnlink "gone") (Some CbSimpleOp) 0;
           EvAlloc (Malloc 256) true; EvReqCleanup;
           EvWriteCallback 7 (Some "ENOENT: no such file or directory"%string) 9;
           EvFree OwnPath; EvFree OwnErrorMsg; EvFree OwnReq]
          [] [] []).
Proof. vm_compute. reflexivity. Qed.

(* ===================================================================== *)
(** * The destination buffer of a read *)
(* ===================================================================== *)

Lemma size_wrap_small (z : Z) : 0 <= z < 2 ^ 64 -> size_wrap z = z.
Proof. intros Hz. unfold size_wrap. apply Z.mod_small. exact Hz. Qed.

Lemma uint_wrap_small (z : Z) : 0 <= z < 2 ^ 32 -> uint_wrap z = z.
Proof. intros Hz. unfold uint_wrap. apply Z.mod_small. exact Hz. Qed.

Lemma read_two_bytes_trace :
  trace (snd read_two_bytes) =
  [EvAlloc Calloc true; EvAlloc (Strdup "f") true;
   EvIssue (UvFsStat "f") (Some CbReadStat) 0; EvReqCleanup;
   EvIssue (UvFsOpen "f" 0 0) (Some CbReadOpen) 0; EvReqCleanup;
   EvAlloc (Malloc 3) true;
   EvIssue (UvFsRead 3 2 0) (Some CbReadData) 0; EvReqCleanup;
   EvIssue (UvFsClose 3) (Some CbReadClose) 0; EvReqCleanup;
   EvReadCallback 7 None (Some ["a"; "b"; "000"]%byte) 2 9;
   EvFree OwnPath; EvFree OwnReq].
Proof. vm_compute. reflexivity. Qed.

(** C6, as stated, fails: the buffer of [file_size + 1 = 3] bytes is not
    allocated before the open is issued; the open comes first. *)
Lemma buffer_not_allocated_before_open :
  ~ happens_before (is_alloc_of 3) is_open_issue (trace (snd read_two_bytes)).
Proof.
  rewrite read_two_bytes_trace. intros (i & j & Hi & Hj & Hlt).
  vm_compute in Hi, Hj. injection Hi as <-. injection Hj as <-. lia.
Qed.

Lemma open_issued_before_buffer_allocated :
  happens_before is_open_issue (is_alloc_of 3) (trace (snd read_two_bytes)) /\
  happens_before (is_alloc_of 3) is_read_issue (trace (snd read_two_bytes)).
Proof.
  rewrite read_two_bytes_trace. split.
  - exists 4%nat, 6%nat. repeat split; [lia].
  - exists 6%nat, 7%nat. repeat split; [lia].
Qed.

Section ReadBuffer.
Context {R : Type} {uv : Libuv R}.

(** C6, amended.  Once the size check has passed, the stat handler issues
    open(path, read-only) without allocating anything.  The destination
    buffer of [file_size + 1] bytes is allocated by the open handler, after
    the open has completed successfully: from the arena when one was
    supplied, from the heap otherwise; when the block is granted the read of
    [file_size] bytes at offset 0 is issued next. *)
Theorem read_buffer_allocated_after_open (req : fs_request_t) (w : world R) :
  0 <= result (fs_req req) ->
  (size_wrap (st_size (statbuf (fs_req req))) <= ECEWO_FS_MAX_FILE_SIZE ->
   let call := UvFsOpen (str (path req)) UV_FS_O_RDONLY 0 in
   trace (snd (read_stat_cb req w)) =
     trace w ++ [EvReqCleanup;
                 EvIssue call (Some CbReadOpen) (rx_ret (fst (rx_submit call (reactor w))))] /\
   allocs (snd (read_stat_cb req w)) = allocs w) /\
  (0 <= file_size req <= ECEWO_FS_MAX_FILE_SIZE ->
   let site := match arena req with
               | Some a => ArenaAlloc a (file_size req + 1)
               | None => Malloc (file_size req + 1)
               end in
   let granted := hd true (allocs w) in
   let call := UvFsRead (int_wrap (result (fs_req req))) (file_size req) 0 in
   exists rest : list event,
     trace (snd (read_open_cb req w)) =
       trace w ++ EvReqCleanup :: EvAlloc site granted :: rest /\
     (granted = true ->
      rest = [EvIssue call (Some CbReadData)
                (rx_ret (fst (rx_submit call (reactor w))))])).
Proof.
  intros Hres.
  assert (Hge : (result (fs_req req) <? 0) = false) by (apply Z.ltb_ge; exact Hres).
  destruct w as [st tr al rx pd]. split.
  - intros Hsmall call.
    assert (Hle : (ECEWO_FS_MAX_FILE_SIZE <? size_wrap (st_size (statbuf (fs_req req))))
                  = false) by (apply Z.ltb_ge; exact Hsmall).
    unfold read_stat_cb. rewrite Hge. cbn [file_size with_file_size]. rewrite Hle.
    subst call. unfold_engine. unfold str. cbn.
    run_engine.
    all: rewrite <- ?app_assoc; split; reflexivity.
  - intros Hsize site granted call.
    unfold ECEWO_FS_MAX_FILE_SIZE in Hsize.
    unfold read_open_cb. rewrite Hge.
    subst site granted call. unfold_engine. cbn.
    destruct (arena req) as [a|]; cbn.
    all: destruct (hd true al) eqn:Hal; cbn.
    all: rewrite ?size_wrap_small, ?uint_wrap_small by lia.
    all: run_engine.
    all: rewrite <- ?app_assoc; cbn.
    all: eexists; split; [reflexivity|]; intros Hok; try discriminate Hok; reflexivity.
Qed.

End ReadBuffer.

Lemma read_buffer_allocated_after_open_witness :
  let req := with_path (Some "f"%string)
               (with_file_size 2
                  (with_fs_req (mk_uv_fs 3 (mk_uv_stat 2 420)) fs_request_zero)) in
  let w := world0 [reply 0 0] [] in
  0 <= result (fs_req req) /\
  allocs (snd (read_stat_cb req w)) = allocs w /\
  exists rest : list event,
    trace (snd (read_open_cb req w)) =
      trace w ++ EvReqCleanup :: EvAlloc (Malloc 3) true :: rest.
Proof.
  intros req w.
  assert (Hres : 0 <= result (fs_req req)) by (simpl; lia).
  split; [exact Hres|].
  destruct (read_buffer_allocated_after_open req w Hres) as [Hstat Hopen].
  split.
  - apply Hstat. vm_compute. discriminate.
  - destruct Hopen as (rest & Htr & _).
    + split; vm_compute; discriminate.
    + exists rest. exact Htr.
Defined.

(* ===================================================================== *)
(** * The engine moves the registry by admission-controller steps only *)
(* ===================================================================== *)

Lemma step_begin_from (s : fs_module_state_t) (z : Z) (s' : fs_module_state_t) :
  fs_can_accept_operation s = (z, s') ->
  negb (initialized s) = false ->
  (z =? 0) = false ->
  registry_step s (fs_begin_operation s').
Proof.
  intros Hgate Hi Hz.
  change s' with (snd (z, s')). rewrite <- Hgate. apply step_begin.
  - destruct (initialized s); [reflexivity | discriminate Hi].
  - rewrite Hgate. cbn. apply Z.eqb_neq. exact Hz.
Qed.

Lemma step_probe_from (s : fs_module_state_t) (z : Z) (s' : fs_module_state_t) :
  fs_can_accept_operation s = (z, s') -> registry_step s s'.
Proof.
  intros Hgate. change s' with (snd (z, s')). rewrite <- Hgate. apply step_probe.
Qed.

Ltac registry_steps :=
  repeat first
    [ apply rtc_refl
    | apply rtc_once; eapply step_begin_from; eassumption
    | apply rtc_once; eapply step_probe_from; eassumption
    | eapply rtc_r;
      [| first [ apply step_end | apply step_record_error
               | apply step_record_read | apply step_record_write ] ] ].

Section EngineRegistry.
Context {R : Type} {uv : Libuv R}.

Lemma dispatch_registry_steps (cb : uv_fs_cb) (req : fs_request_t) (w : world R) :
  rtc registry_step (fs_state w) (fs_state (snd (dispatch cb req w))).
Proof.
  destruct w as [st tr al rx pd].
  destruct cb; unfold_engine; cbn.
  all: run_engine.
  all: registry_steps.
Qed.

Lemma enter_registry_steps (c : fs_call) (w : world R) :
  rtc registry_step (fs_state w) (fs_state (snd (enter c w))).
Proof.
  destruct w as [st tr al rx pd].
  destruct c;
    unfold enter, fs_read_file, fs_write_file, fs_append_file, fs_write_internal,
      fs_stat, fs_unlink, fs_mkdir, fs_rmdir, fs_simple_op, fs_simple_op_mode,
      fs_rename;
    unfold_engine; cbn.
  all: run_engine.
  all: registry_steps.
Qed.

Lemma run_loop_registry_steps (turns : nat) (w : world R) :
  rtc registry_step (fs_state w) (fs_state (snd (run_loop turns w))).
Proof.
  revert w. induction turns as [|k IH]; intros w; [apply rtc_refl|].
  change (run_loop (S k) w) with ((deliver ;; run_loop k) w). unfold bind.
  destruct (deliver w) as [[] w1] eqn:Hd.
  transitivity (fs_state w1); [|apply IH].
  unfold deliver in Hd. destruct (pending w) as [|[cb req] rest].
  - injection Hd as <-. apply rtc_refl.
  - pose proof (dispatch_registry_steps cb req
                  (mk_world (fs_state w) (trace w) (allocs w) (reactor w) rest)) as Hsteps.
    rewrite Hd in Hsteps. exact Hsteps.
Qed.

Lemma reachable_steps (s s' : fs_module_state_t) :
  reachable s -> rtc registry_step s s' -> reachable s'.
Proof.
  intros Hs Hsteps. induction Hsteps as [|x y z Hxy _ IH]; [exact Hs|].
  apply IH. exact (reachable_step x y Hs Hxy).
Qed.

(** Whatever is called and whatever completes, the registry stays within
    the reachable states. *)
Lemma engine_keeps_reachable (c : fs_call) (turns : nat) (w : world R) :
  reachable (fs_state w) -> reachable (fs_state (snd (run_call c turns w))).
Proof.
  intros Hw. unfold run_call, bind, ret.
  destruct (enter c w) as [r w1] eqn:He.
  destruct (run_loop turns w1) as [[] w2] eqn:Hl. cbn [snd].
  apply reachable_steps with (fs_state w1).
  - apply reachable_steps with (fs_state w); [exact Hw|].
    pose proof (enter_registry_steps c w) as H. rewrite He in H. exact H.
  - pose proof (run_loop_registry_steps turns w1) as H. rewrite Hl in H. exact H.
Qed.

End EngineRegistry.

(* ===================================================================== *)
(** * What a successful write and a successful read go through *)
(* ===================================================================== *)

Arguments run_loop : simpl never.

(** One turn of the event loop on a world whose pending list is known. *)
Ltac loop_turn :=
  first
    [ rewrite run_loop_idle by reflexivity
    | erewrite run_loop_next by reflexivity;
      unfold dispatch; unfold_engine; cbn; run_engine ].

Section SuccessfulRuns.
Context {R : Type} {uv : Libuv R}.



End SuccessfulRuns.

(* ===================================================================== *)
(** * Write, then read *)
(* ===================================================================== *)







(* ===================================================================== *)
(** * A call run to the end: registry, memory, order *)
(* ===================================================================== *)

Arguments int_wrap : simpl never.
Arguments u64_wrap : simpl never.
Arguments size_wrap : simpl never.
Arguments uint_wrap : simpl never.
Arguments fs_begin_operation : simpl never.
Arguments fs_end_operation : simpl never.

Ltac to_arith :=
  repeat match goal with
         | H : (_ <? _) = true |- _ => apply Z.ltb_lt in H
         | H : (_ <? _) = false |- _ => apply Z.ltb_ge in H
         end.

Ltac wrap_small :=
  repeat match goal with
         | |- context [int_wrap ?z] => rewrite (int_wrap_small z) by lia
         | H : context [int_wrap ?z] |- _ => rewrite (int_wrap_small z) in H by lia
         end.

(** Brings the allocator outcomes and reactor answers met on the way into
    the form in which they occur in the events. *)
Ltac settle_outcomes :=
  repeat match goal with
         | H : negb ?x = false |- _ => apply negb_false_iff in H
         | H : negb ?x = true |- _ => apply negb_true_iff in H
         end;
  repeat match goal with
         | H : hd true ?l = _ |- _ => rewrite H in *; clear H
         | H : (rx_ret ?r <? 0) = _ |- context [rx_ret ?r <? 0] => rewrite H
         end.

Lemma end_operation_eq (s : fs_module_state_t) :
  fs_end_operation s
  = uv_mutex_unlock
      (with_active (if 0 <? active_operations s
                    then int_wrap (active_operations s - 1)
                    else active_operations s) s).
Proof.
  unfold fs_end_operation. destruct s. cbn.
  destruct (0 <? _); reflexivity.
Qed.

Lemma begin_operation_eq (s : fs_module_state_t) :
  fs_begin_operation s
  = uv_mutex_unlock
      (with_peak (if peak_operations s <? int_wrap (active_operations s + 1)
                  then int_wrap (active_operations s + 1)
                  else peak_operations s)
         (with_active (int_wrap (active_operations s + 1)) s)).
Proof.
  unfold fs_begin_operation. destruct s. cbn.
  destruct (_ <? _); reflexivity.
Qed.

Lemma substring_length_le (n : nat) :
  forall s : string, (String.length (String.substring 0 n s) <= n)%nat.
Proof.
  induction n as [|n IH]; intros s; destruct s as [|ch s]; cbn; try lia.
  specialize (IH s). lia.
Qed.

Lemma snprintf_bound (s : string) : (String.length (snprintf 256 s) <= 255)%nat.
Proof. exact (substring_length_le 255 s). Qed.

Arguments snprintf : simpl never.

Section RunToTheEnd.
Context {R : Type} {uv : Libuv R}.

Lemma run_call_facts (c : fs_call) (turns : nat) (w : world R) :
  pending w = [] -> (4 <= turns)%nat ->
  exists evs : list event,
    trace (snd (run_call c turns w)) = trace w ++ evs /\
    run_facts c (fs_state w) (fs_state (snd (run_call c turns w))) evs.
Proof.
  intros Hp Hturns. destruct w as [st tr al rx pd]. cbn in Hp. subst pd.
  destruct turns as [|[|[|[|k]]]]; try lia. clear Hturns.
  unfold run_call.
  destruct c; unfold_entries; unfold_engine; cbn.
  all: run_engine.
  all: try congruence.
  all: repeat loop_turn.
  all: try congruence.
  all: cbn; rewrite <- ?app_assoc; cbn.
  all: first [ eexists; split; [reflexivity|]
             | exists []; rewrite app_nil_r; split; [reflexivity|] ].
  all: settle_outcomes.
  all: unfold run_facts, same_counters, records_allocated, strings_allocated,
         blocks_allocated, records_freed, strings_freed, blocks_freed, handed_over,
         error_reported, write_succeeded, callbacks, issues, fs_record_error,
         fs_record_read, fs_record_write;
       rewrite ?end_operation_eq, ?begin_operation_eq; cbn.
  all: repeat match goal with
       | |- _ /\ _ => split
       | |- _ -> _ => intro
       end.
  all: try reflexivity; try discriminate; try congruence; try lia.
  all: try match goal with
       | |- callers_own _ _ =>
           unfold callers_own; repeat first [apply List.Forall_nil | apply List.Forall_cons];
           cbn; intros; simplify_eq; reflexivity
       | |- errors_bounded _ =>
           unfold errors_bounded, or_else;
           repeat first [apply List.Forall_nil | apply List.Forall_cons];
           cbn; intros; simplify_eq; cbn; first [apply snprintf_bound | lia]
       end.
  all: repeat match goal with
       | |- context [if ?b then _ else _] => destruct b eqn:?
       | |- context [match ?o with Some _ => _ | None => _ end] => destruct o eqn:?
       end.
  all: try reflexivity; try discriminate; try congruence.
  all: to_arith; wrap_small; try lia.
Qed.

Lemma run_call_events (c : fs_call) (turns : nat) (w : world R) :
  pending w = [] -> (4 <= turns)%nat ->
  run_facts c (fs_state w) (fs_state (snd (run_call c turns w)))
    (new_events (run_call c turns) w).
Proof.
  intros Hp Hturns.
  destruct (run_call_facts c turns w Hp Hturns) as (evs & Htr & Hfacts).
  rewrite (new_events_spec _ _ _ Htr). exact Hfacts.
Qed.

(** X1.  The slot an operation takes is given back.  Whatever the call and
    however it ends, once its chain has run (libuv accepting the calls made
    by the handlers) the active count is what it was before the call; when
    the call reached the reactor, the peak is the larger of the old peak
    and the count while the operation ran. *)
Theorem slot_released (c : fs_call) (turns : nat) (w : world R) :
  pending w = [] -> (4 <= turns)%nat ->
  active_in_range (fs_state w) ->
  let evs := new_events (run_call c turns) w in
  let st' := fs_state (snd (run_call c turns w)) in
  (chain_accepted evs = true ->
     active_operations st' = active_operations (fs_state w)) /\
  (issues evs <> 0%nat ->
     peak_operations st'
     = Z.max (peak_operations (fs_state w)) (active_operations (fs_state w) + 1)).
Proof.
  intros Hp Hturns Hr evs st'.
  unfold active_in_range, ECEWO_FS_MAX_CONCURRENT_OPS in Hr.
  destruct (run_call_events c turns w Hp Hturns)
    as (Hact & _ & _ & _ & _ & _ & _ & _ & _ & _ & Hpeak & _).
  split.
  - intros Hacc. apply Hact; [lia | exact Hacc].
  - intros Hissue. apply Hpeak; [exact Hissue | lia].
Qed.


(** X3.  The callback is never invoked twice, nothing is freed before it is
    invoked, and after it nothing happens but the release of the Record:
    no reactor call, no allocation, no diagnostic. *)
Theorem callback_before_release (c : fs_call) (turns : nat) (w : world R) :
  pending w = [] -> (4 <= turns)%nat ->
  let evs := new_events (run_call c turns) w in
  (callbacks evs <= 1)%nat /\
  (callbacks evs <> 0%nat -> callback_then_release evs = true).
Proof.
  intros Hp Hturns evs.
  destruct (run_call_events c turns w Hp Hturns)
    as (_ & _ & _ & _ & _ & _ & _ & _ & _ & _ & _ & Hone & Horder & _).
  split; [exact Hone | exact Horder].
Qed.

(** X4.  [total_reads] and [total_bytes_read] move only when a read callback
    reports success, and then by one and by the length handed to the
    callback; whatever else is called or fails leaves them alone. *)
Theorem reads_counted (c : fs_call) (turns : nat) (w : world R) :
  pending w = [] -> (4 <= turns)%nat ->
  let evs := new_events (run_call c turns) w in
  let st := fs_state w in
  let st' := fs_state (snd (run_call c turns w)) in
  total_reads st' = match read_delivered evs with
                    | Some _ => u64_wrap (total_reads st + 1)
                    | None => total_reads st
                    end /\
  total_bytes_read st' = match read_delivered evs with
                         | Some (_, n) => u64_wrap (total_bytes_read st + n)
                         | None => total_bytes_read st
                         end.
Proof.
  intros Hp Hturns evs st st'.
  destruct (run_call_events c turns w Hp Hturns) as (_ & _ & _ & Hreads & _).
  exact Hreads.
Qed.

(** X5.  [total_writes] moves by one exactly when a write or an append ends in
    success; stat, unlink, mkdir, rmdir and rename never count as writes,
    and a write that fails or is turned away changes neither
    [total_writes] nor [total_bytes_written]. *)
Theorem writes_counted (c : fs_call) (turns : nat) (w : world R) :
  pending w = [] -> (4 <= turns)%nat ->
  let evs := new_events (run_call c turns) w in
  let st := fs_state w in
  let st' := fs_state (snd (run_call c turns w)) in
  total_writes st' = (if is_write_call c && write_succeeded evs
                      then u64_wrap (total_writes st + 1) else total_writes st) /\
  (is_write_call c && write_succeeded evs = false ->
   total_bytes_written st' = total_bytes_written st).
Proof.
  intros Hp Hturns evs st st'.
  destruct (run_call_events c turns w Hp Hturns) as (_ & _ & _ & _ & Hw & Hb & _).
  split; [exact Hw | exact Hb].
Qed.

(** X6.  [failed_operations] rises by one whenever a callback is handed an
    error, stays when no callback is made, and, for read, write, append
    and stat, stays when the callback reports success. *)
Theorem failures_counted (c : fs_call) (turns : nat) (w : world R) :
  pending w = [] -> (4 <= turns)%nat ->
  let evs := new_events (run_call c turns) w in
  let st := fs_state w in
  let st' := fs_state (snd (run_call c turns w)) in
  (error_reported evs = true ->
     failed_operations st' = int_wrap (failed_operations st + 1)) /\
  (callbacks evs = 0%nat -> failed_operations st' = failed_operations st) /\
  (is_chain_call c = true -> error_reported evs = false ->
     failed_operations st' = failed_operations st).
Proof.
  intros Hp Hturns evs st st'.
  destruct (run_call_events c turns w Hp Hturns)
    as (_ & _ & _ & _ & _ & _ & Hf1 & Hf2 & Hf3 & _).
  split; [exact Hf1 | split; [exact Hf2 | exact Hf3]].
Qed.

(** X7.  A call that never reaches the reactor (bad arguments, module not
    initialized, no free slot, oversized payload, no memory) leaves all
    eight counters as they were: a rejection is not a failed operation.
    No call ever changes [queued_operations] or the initialized flag. *)
Theorem rejection_leaves_registry (c : fs_call) (turns : nat) (w : world R) :
  pending w = [] -> (4 <= turns)%nat ->
  let evs := new_events (run_call c turns) w in
  let st := fs_state w in
  let st' := fs_state (snd (run_call c turns w)) in
  (issues evs = 0%nat -> same_counters st' st) /\
  queued_operations st' = queued_operations st /\
  initialized st' = initialized st.
Proof.
  intros Hp Hturns evs st st'.
  destruct (run_call_events c turns w Hp Hturns)
    as (_ & _ & (Hq & Hi) & _ & _ & _ & _ & _ & _ & Hsame & _).
  split; [exact Hsame | split; [exact Hq | exact Hi]].
Qed.

(** X8.  The callback that is invoked is the function the caller passed, of
    the type that goes with the entry point, and it is handed the caller's
    [user_data]. *)
Theorem callback_is_callers_own (c : fs_call) (turns : nat) (w : world R)
    (i : nat) (e : event) (k : callback_kind * option fn_ptr * Z) :
  pending w = [] -> (4 <= turns)%nat ->
  new_events (run_call c turns) w !! i = Some e ->
  invoked e = Some k ->
  k = expects c.
Proof.
  intros Hp Hturns Hi Hk.
  destruct (run_call_events c turns w Hp Hturns)
    as (_ & _ & _ & _ & _ & _ & _ & _ & _ & _ & _ & _ & _ & Hown & _).
  unfold callers_own in Hown. rewrite Forall_lookup in Hown.
  exact (Hown i e Hi k Hk).
Qed.

(** X9.  An error string handed to a callback, whether built by
    [make_error_msg] from libuv's name and text for the error or one of
    the literals, is at most 255 characters long. *)
Theorem error_message_bounded (c : fs_call) (turns : nat) (w : world R)
    (i : nat) (e : event) (msg : string) :
  pending w = [] -> (4 <= turns)%nat ->
  new_events (run_call c turns) w !! i = Some e ->
  error_of e = Some (Some msg) ->
  (String.length msg <= 255)%nat.
Proof.
  intros Hp Hturns Hi Hmsg.
  destruct (run_call_events c turns w Hp Hturns)
    as (_ & _ & _ & _ & _ & _ & _ & _ & _ & _ & _ & _ & _ & _ & Hbound & _).
  unfold errors_bounded in Hbound. rewrite Forall_lookup in Hbound.
  exact (Hbound i e Hi msg Hmsg).
Qed.

(** X10.  An operation starts with the request that goes with its entry point:
    a stat for a read and for a stat; an open for writing, creating the
    file with mode 0644, truncating for a write and appending for an
    append; unlink, rmdir, rename on the paths given; mkdir with mode
    0755.  Nothing is asked of libuv before. *)
Theorem first_request_made (c : fs_call) (turns : nat) (w : world R) :
  pending w = [] -> (4 <= turns)%nat ->
  issues (new_events (run_call c turns) w) <> 0%nat ->
  first_issue (new_events (run_call c turns) w) = first_request c.
Proof.
  intros Hp Hturns Hissue.
  destruct (run_call_events c turns w Hp Hturns)
    as (_ & _ & _ & _ & _ & _ & _ & _ & _ & _ & _ & _ & _ & _ & _ & Hfirst).
  exact (Hfirst Hissue).
Qed.

End RunToTheEnd.

Lemma slot_released_witness :
  let '(c, w) := read_denied in
  active_operations (fs_state (snd (run_call c 4 w))) = 0 /\
  peak_operations (fs_state (snd (run_call c 4 w))) = 1.
Proof.
  cbv beta iota delta [read_denied].
  set (c := CallReadFile (Some "f"%string) None (Some 7) 9).
  set (w := world0 [reply_stat 2; reply 0 (-13)] []).
  assert (Hr : active_in_range (fs_state w))
    by (unfold active_in_range, ECEWO_FS_MAX_CONCURRENT_OPS; cbn; lia).
  destruct (slot_released c 4 w eq_refl (le_n 4) Hr) as [Ha Hp].
  split.
  - apply Ha. vm_compute. reflexivity.
  - apply Hp. vm_compute. discriminate.
Defined.


Lemma callback_before_release_witness :
  let '(c, w) := read_denied in
  callbacks (new_events (run_call c 4) w) = 1%nat /\
  callback_then_release (new_events (run_call c 4) w) = true.
Proof.
  cbv beta iota delta [read_denied].
  split; [vm_compute; reflexivity|].
  apply (callback_before_release (CallReadFile (Some "f"%string) None (Some 7) 9) 4
           (world0 [reply_stat 2; reply 0 (-13)] []) eq_refl (le_n 4)).
  vm_compute. discriminate.
Defined.

Lemma reads_counted_witness :
  let '(c, w) := read_two in
  total_reads (fs_state (snd (run_call c 4 w))) = 1 /\
  total_bytes_read (fs_state (snd (run_call c 4 w))) = 2.
Proof.
  cbv beta iota delta [read_two].
  exact (reads_counted (CallReadFile (Some "f"%string) None (Some 7) 9) 4
           (world0 [reply_stat 2; reply 0 3; reply_read ["a"; "b"]%byte; reply 0 0] [])
           eq_refl (le_n 4)).
Defined.

Lemma writes_counted_witness :
  let '(c, w) := write_two_bytes in
  total_writes (fs_state (snd (run_call c 4 w))) = 1.
Proof.
  cbv beta iota delta [write_two_bytes].
  exact (proj1 (writes_counted
                  (CallWriteFile (Some "f"%string) (Some ["a"; "b"]%byte) 2 (Some 7) 9) 4
                  (world0 [reply 0 3; reply 0 2; reply 0 0] []) eq_refl (le_n 4))).
Defined.

Lemma failures_counted_witness :
  let '(c, w) := read_denied in
  failed_operations (fs_state (snd (run_call c 4 w))) = 1.
Proof.
  cbv beta iota delta [read_denied].
  apply (failures_counted (CallReadFile (Some "f"%string) None (Some 7) 9) 4
           (world0 [reply_stat 2; reply 0 (-13)] []) eq_refl (le_n 4)).
  vm_compute. reflexivity.
Defined.

Lemma rejection_leaves_registry_witness :
  let '(c, w) := stat_when_full in
  fst (run_call c 4 w) = -1 /\
  same_counters (fs_state (snd (run_call c 4 w))) (fs_state w).
Proof.
  cbv beta iota delta [stat_when_full].
  split; [vm_compute; reflexivity|].
  apply (rejection_leaves_registry (CallStat (Some "f"%string) (Some 7) 9) 4
           (mk_world (with_active 100 fs_state_busy) [] [] ([] : list rx_reply) [])
           eq_refl (le_n 4)).
  vm_compute. reflexivity.
Defined.

Lemma callback_is_callers_own_witness :
  let '(c, w) := read_denied in
  new_events (run_call c 4) w !! 7%nat
  = Some (EvReadCallback 7 (Some "EACCES: permission denied"%string) None 0 9) /\
  (KindRead, Some 7, 9) = expects c.
Proof.
  cbv beta iota delta [read_denied].
  split; [vm_compute; reflexivity|].
  apply (callback_is_callers_own (CallReadFile (Some "f"%string) None (Some 7) 9) 4
           (world0 [reply_stat 2; reply 0 (-13)] []) 7
           (EvReadCallback 7 (Some "EACCES: permission denied"%string) None 0 9)
           (KindRead, Some 7, 9) eq_refl (le_n 4)).
  - vm_compute. reflexivity.
  - reflexivity.
Defined.

Lemma error_message_bounded_witness :
  let '(c, w) := read_denied in
  new_events (run_call c 4) w !! 7%nat
  = Some (EvReadCallback 7 (Some "EACCES: permission denied"%string) None 0 9) /\
  (String.length "EACCES: permission denied" <= 255)%nat.
Proof.
  cbv beta iota delta [read_denied].
  split; [vm_compute; reflexivity|].
  apply (error_message_bounded (CallReadFile (Some "f"%string) None (Some 7) 9) 4
           (world0 [reply_stat 2; reply 0 (-13)] []) 7
           (EvReadCallback 7 (Some "EACCES: permission denied"%string) None 0 9)
           "EACCES: permission denied" eq_refl (le_n 4)).
  - vm_compute. reflexivity.
  - reflexivity.
Defined.

Lemma first_request_made_witness :
  let '(c, w) := write_two_bytes in
  first_issue (new_events (run_call c 4) w)
  = Some (UvFsOpen "f" 577 420, Some CbWriteOpen).
Proof.
  cbv beta iota delta [write_two_bytes].
  apply (first_request_made
           (CallWriteFile (Some "f"%string) (Some ["a"; "b"]%byte) 2 (Some 7) 9) 4
           (world0 [reply 0 3; reply 0 2; reply 0 0] []) eq_refl (le_n 4)).
  vm_compute. discriminate.
Defined.

(* ===================================================================== *)
(** * More on the registry *)
(* ===================================================================== *)

(** X11.  [fs_init] returns 0 exactly when the module is initialized afterwards
    and -1 otherwise; it never touches a counter; on an initialized module
    it changes nothing and prints nothing; and once it has succeeded,
    calling it again, whether or not a mutex could be had, is a no-op that
    returns 0. *)
Theorem init_idempotent (ok ok' : bool) (s : fs_module_state_t) :
  let r := fst (fst (fs_init ok s)) in
  let s' := snd (fst (fs_init ok s)) in
  (r = 0 \/ r = -1) /\
  (r = 0 <-> initialized s' = true) /\
  same_counters s' s /\
  (initialized s = true -> fs_init ok s = (0, s, [])) /\
  (r = 0 -> fs_init ok' s' = (0, s', [])) /\
  (r = -1 -> s' = s).
Proof.
  unfold fs_init, same_counters.
  destruct (initialized s) eqn:Hi; [|destruct ok]; cbn; rewrite ?Hi; cbn.
  all: repeat match goal with |- _ /\ _ => split | |- _ <-> _ => split end.
  all: try (intros; first [reflexivity | discriminate | congruence]).
  all: first [left; reflexivity | right; reflexivity].
Qed.

Lemma init_idempotent_witness :
  fst (fst (fs_init true fs_state_zero)) = 0 /\
  fs_init false (snd (fst (fs_init true fs_state_zero)))
  = (0, snd (fst (fs_init true fs_state_zero)), []) /\
  snd (fst (fs_init false fs_state_busy)) = fs_state_busy.
Proof.
  destruct (init_idempotent true false fs_state_zero) as (_ & _ & _ & _ & Hagain & _).
  destruct (init_idempotent false false fs_state_busy) as (_ & _ & _ & Hbusy & _).
  split; [reflexivity|]. split; [exact (Hagain eq_refl)|].
  rewrite (Hbusy eq_refl). reflexivity.
Defined.

Lemma u64_wrap_range (z : Z) : 0 <= u64_wrap z < 2 ^ 64.
Proof. unfold u64_wrap. apply Z.mod_pos_bound. lia. Qed.

Lemma step_keeps_bounds (s s' : fs_module_state_t) :
  registry_step s s' ->
  active_in_range s ->
  queued_operations s = 0 /\ 0 <= peak_operations s <= ECEWO_FS_MAX_CONCURRENT_OPS
  /\ totals_in_range s ->
  queued_operations s' = 0 /\ 0 <= peak_operations s' <= ECEWO_FS_MAX_CONCURRENT_OPS
  /\ totals_in_range s'.
Proof.
  unfold active_in_range, totals_in_range, ECEWO_FS_MAX_CONCURRENT_OPS.
  intros Hstep Ha (Hq & Hp & Ht).
  destruct Hstep as [ok s|s|s Hi Hgate|s|n s|n s|s|s].
  - unfold fs_init. destruct (initialized s); [|destruct ok]; cbn; auto.
  - unfold fs_can_accept_operation. destruct (initialized s); cbn; auto.
  - pose proof (gate_open_below_ceiling s Hi Hgate) as Hlt.
    unfold ECEWO_FS_MAX_CONCURRENT_OPS in Hlt.
    destruct (can_accept_state s) as (Hsa & Hsp & _).
    rewrite begin_operation_eq. cbn. rewrite Hsa, Hsp.
    rewrite int_wrap_small by lia.
    unfold fs_can_accept_operation. rewrite Hi. cbn.
    split; [exact Hq|]. split; [|exact Ht].
    destruct (Z.ltb_spec (peak_operations s) (active_operations s + 1)); lia.
  - rewrite end_operation_eq. cbn. auto.
  - unfold fs_record_read. cbn. split; [exact Hq|]. split; [exact Hp|].
    destruct Ht as (_ & Hw & _ & Hbw).
    repeat split; try apply u64_wrap_range; lia.
  - unfold fs_record_write. cbn. split; [exact Hq|]. split; [exact Hp|].
    destruct Ht as (Hr & _ & Hbr & _).
    repeat split; try apply u64_wrap_range; lia.
  - unfold fs_record_error. cbn. auto.
  - unfold fs_reset_stats. destruct (initialized s); cbn; auto.
    split; [exact Hq|]. repeat split; lia.
Qed.

Lemma reachable_bounds (s : fs_module_state_t) :
  reachable s ->
  queued_operations s = 0 /\
  0 <= peak_operations s <= ECEWO_FS_MAX_CONCURRENT_OPS /\
  totals_in_range s.
Proof.
  induction 1 as [|s s' Hs IH Hstep].
  - unfold totals_in_range, ECEWO_FS_MAX_CONCURRENT_OPS. cbn. lia.
  - exact (step_keeps_bounds s s' Hstep (reachable_in_range s Hs) IH).
Qed.

(** X12.  Whatever is called, with whatever else in flight, and however many
    completions are delivered, a registry that the admission controller
    can reach stays one: no more than ECEWO_FS_MAX_CONCURRENT_OPS
    operations are ever active and the count is never negative, the peak
    lies within the same bounds, nothing is ever queued, the four totals
    stay within 64 bits, and the lock is not left held. *)
Theorem engine_within_bounds {R : Type} {uv : Libuv R} (c : fs_call) (turns : nat)
    (w : world R) :
  reachable (fs_state w) ->
  let s' := fs_state (snd (run_call c turns w)) in
  0 <= active_operations s' <= ECEWO_FS_MAX_CONCURRENT_OPS /\
  0 <= peak_operations s' <= ECEWO_FS_MAX_CONCURRENT_OPS /\
  queued_operations s' = 0 /\
  totals_in_range s' /\
  (initialized s' = true -> mutex s' = MutexUnlocked).
Proof.
  intros Hw s'.
  pose proof (engine_keeps_reachable c turns w Hw) as Hs'. fold s' in Hs'.
  destruct (reachable_bounds s' Hs') as (Hq & Hp & Ht).
  split; [exact (reachable_in_range s' Hs')|].
  split; [exact Hp|]. split; [exact Hq|]. split; [exact Ht|].
  exact (reachable_unlocked s' Hs').
Qed.

Lemma engine_within_bounds_witness :
  let '(c, w) := write_two_bytes in
  reachable (fs_state w) /\
  total_bytes_written (fs_state (snd (run_call c 4 w))) = 2 /\
  0 <= active_operations (fs_state (snd (run_call c 4 w)))
    <= ECEWO_FS_MAX_CONCURRENT_OPS.
Proof.
  cbv beta iota delta [write_two_bytes].
  assert (Hready : reachable
            (fs_state (world0 ([reply 0 3; reply 0 2; reply 0 0] : list rx_reply) []))).
  { apply (reachable_step fs_state_zero); [apply reachable_zero|].
    exact (step_init true fs_state_zero). }
  split; [exact Hready|]. split; [vm_compute; reflexivity|].
  exact (proj1 (engine_within_bounds
                  (CallWriteFile (Some "f"%string) (Some ["a"; "b"]%byte) 2 (Some 7) 9) 4
                  (world0 [reply 0 3; reply 0 2; reply 0 0] []) Hready)).
Defined.

Lemma u64_wrap_add_l (a b : Z) : u64_wrap (u64_wrap a + b) = u64_wrap (a + b).
Proof. unfold u64_wrap. apply Zplus_mod_idemp_l. Qed.

Lemma u64_wrap_small (z : Z) : 0 <= z < 2 ^ 64 -> u64_wrap z = z.
Proof. intros Hz. unfold u64_wrap. apply Z.mod_small. exact Hz. Qed.

Lemma record_reads_effect (sizes : list Z) :
  forall s : fs_module_state_t,
    0 <= total_reads s < 2 ^ 64 -> 0 <= total_bytes_read s < 2 ^ 64 ->
    total_reads (record_reads sizes s)
      = u64_wrap (total_reads s + Z.of_nat (length sizes)) /\
    total_bytes_read (record_reads sizes s)
      = u64_wrap (total_bytes_read s + total sizes) /\
    total_writes (record_reads sizes s) = total_writes s /\
    total_bytes_written (record_reads sizes s) = total_bytes_written s /\
    active_operations (record_reads sizes s) = active_operations s /\
    initialized (record_reads sizes s) = initialized s.
Proof.
  induction sizes as [|n rest IH]; intros s Hr Hb.
  - cbn. rewrite !Z.add_0_r, !u64_wrap_small by assumption. auto 10.
  - change (record_reads (n :: rest) s) with (record_reads rest (fs_record_read n s)).
    destruct (IH (fs_record_read n s)) as (Hr' & Hb' & Hw & Hbw & Ha & Hi);
      [apply u64_wrap_range | apply u64_wrap_range |].
    rewrite Hr', Hb', Hw, Hbw, Ha, Hi. unfold fs_record_read. cbn -[Z.of_nat].
    rewrite !u64_wrap_add_l.
    repeat split; f_equal; cbn [length total]; lia.
Qed.

Lemma record_writes_effect (sizes : list Z) :
  forall s : fs_module_state_t,
    0 <= total_writes s < 2 ^ 64 -> 0 <= total_bytes_written s < 2 ^ 64 ->
    total_writes (record_writes sizes s)
      = u64_wrap (total_writes s + Z.of_nat (length sizes)) /\
    total_bytes_written (record_writes sizes s)
      = u64_wrap (total_bytes_written s + total sizes) /\
    total_reads (record_writes sizes s) = total_reads s /\
    total_bytes_read (record_writes sizes s) = total_bytes_read s /\
    active_operations (record_writes sizes s) = active_operations s /\
    initialized (record_writes sizes s) = initialized s.
Proof.
  induction sizes as [|n rest IH]; intros s Hw Hb.
  - cbn. rewrite !Z.add_0_r, !u64_wrap_small by assumption. auto 10.
  - change (record_writes (n :: rest) s) with (record_writes rest (fs_record_write n s)).
    destruct (IH (fs_record_write n s)) as (Hw' & Hb' & Hr & Hbr & Ha & Hi);
      [apply u64_wrap_range | apply u64_wrap_range |].
    rewrite Hw', Hb', Hr, Hbr, Ha, Hi. unfold fs_record_write. cbn -[Z.of_nat].
    rewrite !u64_wrap_add_l.
    repeat split; f_equal; cbn [length total]; lia.
Qed.

(** X13.  The statistics add up.  After a reset, N reads of B bytes in all and
    then M writes of C bytes in all having been recorded, a snapshot taken
    with [fs_get_stats] reports N reads, B bytes read, M writes and C
    bytes written, each modulo 2^64, and the active count the registry
    had. *)
Theorem snapshot_after_records (reads writes : list Z) (old : fs_stats_t)
    (s : fs_module_state_t) :
  initialized s = true ->
  let s' := record_writes writes (record_reads reads (fs_reset_stats s)) in
  exists snap : fs_stats_t,
    fst (fs_get_stats (Some old) s') = Some snap /\
    stats_total_reads snap = u64_wrap (Z.of_nat (length reads)) /\
    stats_total_bytes_read snap = u64_wrap (total reads) /\
    stats_total_writes snap = u64_wrap (Z.of_nat (length writes)) /\
    stats_total_bytes_written snap = u64_wrap (total writes) /\
    stats_active_operations snap = active_operations s.
Proof.
  intros Hi s'.
  assert (Hreset : total_reads (fs_reset_stats s) = 0 /\
                   total_writes (fs_reset_stats s) = 0 /\
                   total_bytes_read (fs_reset_stats s) = 0 /\
                   total_bytes_written (fs_reset_stats s) = 0 /\
                   active_operations (fs_reset_stats s) = active_operations s /\
                   initialized (fs_reset_stats s) = true)
    by (unfold fs_reset_stats; rewrite Hi; cbn; auto 10).
  destruct Hreset as (Hr0 & Hw0 & Hbr0 & Hbw0 & Ha0 & Hi0).
  destruct (record_reads_effect reads (fs_reset_stats s))
    as (Hr & Hbr & Hw & Hbw & Ha & Hi1); [rewrite Hr0; lia | rewrite Hbr0; lia |].
  destruct (record_writes_effect writes (record_reads reads (fs_reset_stats s)))
    as (Hw2 & Hbw2 & Hr2 & Hbr2 & Ha2 & Hi2);
    [rewrite Hw, Hw0; lia | rewrite Hbw, Hbw0; lia |].
  assert (Hinit : initialized s' = true) by (subst s'; rewrite Hi2, Hi1; exact Hi0).
  eexists. split; [apply get_stats_snapshot; exact Hinit|]. cbn -[Z.of_nat].
  subst s'. rewrite Hr2, Hbr2, Ha2, Hw2, Hbw2, Hr, Hbr, Hw, Hbw, Ha, Hr0, Hbr0, Hw0, Hbw0.
  rewrite !Z.add_0_l. repeat split. exact Ha0.
Qed.

Lemma snapshot_after_records_witness :
  exists snap : fs_stats_t,
    fst (fs_get_stats (Some (mk_fs_stats 9 9 9 9 9 9 9 9))
           (record_writes [7] (record_reads [10; 20; 30] (fs_reset_stats fs_state_busy))))
    = Some snap /\
    stats_total_reads snap = 3 /\ stats_total_bytes_read snap = 60 /\
    stats_total_writes snap = 1 /\ stats_total_bytes_written snap = 7 /\
    stats_active_operations snap = 2.
Proof.
  exact (snapshot_after_records [10; 20; 30] [7] (mk_fs_stats 9 9 9 9 9 9 9 9)
           fs_state_busy eq_refl).
Defined.

Lemma cleanup_wait_counters (others : nat -> fs_module_state_t -> fs_module_state_t)
    (remaining : nat) :
  (forall k x, same_counters (others k x) x) ->
  forall (wait_count : nat) (s : fs_module_state_t),
    same_counters (fst (fs_cleanup_wait others wait_count remaining s)) s.
Proof.
  intros Hothers. unfold same_counters in *.
  induction remaining as [|r IH]; intros wait_count s; [cbn; auto 10|].
  unfold fs_cleanup_wait; fold fs_cleanup_wait.
  destruct (0 <? active_operations s); [|cbn; auto 10].
  specialize (IH (S wait_count) (uv_mutex_lock (others wait_count (uv_mutex_unlock s)))).
  destruct (fs_cleanup_wait others (S wait_count) r
              (uv_mutex_lock (others wait_count (uv_mutex_unlock s)))) as [s4 evs].
  cbn [fst] in *.
  pose proof (Hothers wait_count (uv_mutex_unlock s)) as Hk.
  cbn in *. intuition congruence.
Qed.

(** X14.  [fs_cleanup] clears no statistics.  When the other threads leave the
    counters alone during the wait, all eight counters come out of
    [fs_cleanup] as they went in, and a following successful [fs_init]
    finds them so: the totals, the peak and the count of operations still
    in flight survive a cleanup and re-initialization.  On an idle module
    the cleanup does not sleep and prints no warning. *)
Theorem cleanup_keeps_counters (others : nat -> fs_module_state_t -> fs_module_state_t)
    (s : fs_module_state_t) :
  initialized s = true ->
  (forall k x, same_counters (others k x) x) ->
  let s1 := fst (fs_cleanup others s) in
  let s2 := snd (fst (fs_init true s1)) in
  same_counters s1 s /\
  initialized s1 = false /\
  fst (fst (fs_init true s1)) = 0 /\
  initialized s2 = true /\ mutex s2 = MutexUnlocked /\
  same_counters s2 s /\
  (active_operations s <= 0 ->
   snd (fs_cleanup others s) = [LcLock; LcUnlock; LcDestroy]).
Proof.
  intros Hi Hothers s1 s2.
  assert (Hs1 : same_counters s1 s /\ initialized s1 = false).
  { subst s1. unfold fs_cleanup. rewrite Hi. cbn [negb].
    pose proof (cleanup_wait_counters others 100 Hothers 0%nat (uv_mutex_lock s)) as Hw.
    destruct (fs_cleanup_wait others 0 100 (uv_mutex_lock s)) as [sw evs].
    cbn [fst] in *. split; [|reflexivity].
    unfold same_counters in *. cbn in *. exact Hw. }
  destruct Hs1 as [Hsame Hoff].
  assert (Hinit : fs_init true s1 = (0, with_initialized true (with_mutex MutexUnlocked s1), []))
    by (unfold fs_init; rewrite Hoff; reflexivity).
  subst s2. rewrite Hinit. cbn [fst snd].
  split; [exact Hsame|]. split; [exact Hoff|]. split; [reflexivity|].
  split; [reflexivity|]. split; [reflexivity|].
  split; [unfold same_counters in *; cbn; exact Hsame|].
  intros Hidle. unfold fs_cleanup. rewrite Hi. cbn [negb].
  assert (Hno : (0 <? active_operations s) = false)
    by (apply Z.ltb_ge; exact Hidle).
  unfold fs_cleanup_wait. cbn. rewrite Hno. cbn. rewrite Hno. reflexivity.
Qed.

Lemma cleanup_keeps_counters_witness :
  let s := with_active 0 fs_state_busy in
  let s1 := fst (fs_cleanup (fun _ x => x) s) in
  total_bytes_read (snd (fst (fs_init true s1))) = 4096 /\
  snd (fs_cleanup (fun _ x => x) s) = [LcLock; LcUnlock; LcDestroy].
Proof.
  intros s s1.
  assert (Hothers : forall (k : nat) (x : fs_module_state_t),
             same_counters ((fun _ y => y) k x) x)
    by (intros k x; unfold same_counters; auto 10).
  destruct (cleanup_keeps_counters (fun _ x => x) s eq_refl Hothers)
    as (_ & _ & _ & _ & _ & Hsame & Hidle).
  split.
  - destruct Hsame as (_ & _ & _ & _ & _ & Hbr & _). exact Hbr.
  - apply Hidle. cbn. lia.
Defined.

(* ===================================================================== *)
(** * What the callbacks are handed, and the descriptors *)
(* ===================================================================== *)

Section Delivered.
Context {R : Type} {uv : Libuv R}.

(** X15.  [fs_stat] hands libuv's answer through.  On an initialized module with
    a free slot and memory for the Record and the path, the stat callback
    is invoked exactly once; when libuv accepts the request and completes
    it without error it gets a null error and the stat buffer libuv
    filled, unchanged; otherwise it gets an error string and a null stat
    buffer. *)
Theorem stat_passes_through (p : string) (callback : fn_ptr) (ud : Z) (turns : nat)
    (w : world R) (rep : rx_reply) (r1 : R) :
  pending w = [] -> (1 <= turns)%nat ->
  initialized (fs_state w) = true ->
  active_operations (fs_state w) < ECEWO_FS_MAX_CONCURRENT_OPS ->
  hd true (allocs w) = true -> hd true (tail (allocs w)) = true ->
  rx_submit (UvFsStat p) (reactor w) = (rep, r1) ->
  let evs := new_events (run_call (CallStat (Some p) (Some callback) ud) turns) w in
  exists (error : option string) (st : option uv_stat_t),
    stat_delivered evs = Some (error, st) /\
    callbacks evs = 1%nat /\
    if (rx_ret rep <? 0) || (rx_result rep <? 0)
    then is_Some error /\ st = None
    else error = None /\ st = Some (rx_statbuf rep).
Proof.
  intros Hp Hturns Hi Hact Ha1 Ha2 Hsub.
  destruct w as [st tr al rx pd]. cbn in Hp, Hi, Hact, Ha1, Ha2, Hsub. subst pd.
  destruct turns as [|k]; try lia. clear Hturns.
  apply Z.ltb_lt in Hact. unfold ECEWO_FS_MAX_CONCURRENT_OPS in Hact.
  set (m := run_call (CallStat (Some p) (Some callback) ud) (S k)).
  assert (H : exists evs, trace (snd (m (mk_world st tr al rx []))) = tr ++ evs /\
     exists (error : option string) (st0 : option uv_stat_t),
       stat_delivered evs = Some (error, st0) /\
       callbacks evs = 1%nat /\
       if (rx_ret rep <? 0) || (rx_result rep <? 0)
       then is_Some error /\ st0 = None
       else error = None /\ st0 = Some (rx_statbuf rep)).
  { subst m. unfold run_call. unfold_entries. unfold_engine. cbn.
    run_engine.
    all: try congruence.
    all: try (injection Hsub as -> ->).
    all: repeat match goal with
         | H : negb ?x = false |- _ => apply negb_false_iff in H
         | H : negb ?x = true |- _ => apply negb_true_iff in H
         | H : context [active_operations _ <? _] |- _ =>
             unfold ECEWO_FS_MAX_CONCURRENT_OPS in H; rewrite Hact in H; cbn in H
         end.
    all: try congruence.
    all: repeat loop_turn.
    all: try congruence.
    all: cbn; rewrite <- ?app_assoc; cbn.
    all: eexists; (split; [reflexivity|]); cbn.
    all: eexists _, _; (split; [reflexivity|]); (split; [reflexivity|]).
    all: repeat match goal with
         | H : (_ <? _) = _ |- _ => rewrite H in *
         end; cbn in *.
    all: try discriminate.
    all: unfold or_else; split; first [reflexivity | eexists; reflexivity]. }
  destruct H as (evs & Htr & Hres).
  cbn [trace] in Htr. cbn zeta. rewrite (new_events_spec m _ evs Htr). exact Hres.
Qed.

Lemma write_run_facts (p : string) (d : list byte) (n : Z) (callback : fn_ptr)
    (ud flags : Z) (turns : nat) (w : world R) (rep1 rep2 : rx_reply) (r1 r2 : R) :
  pending w = [] -> (3 <= turns)%nat ->
  rx_submit (UvFsOpen p flags mode_0644) (reactor w) = (rep1, r1) ->
  rx_submit (UvFsWrite (int_wrap (rx_result rep1))
               (take (Z.to_nat (uint_wrap n)) (memcpy (fresh_block n) d n)) 0) r1
    = (rep2, r2) ->
  exists evs : list event,
    trace (snd (write_run p d n callback ud flags turns w)) = trace w ++ evs /\
    (write_succeeded evs = true ->
       0 <= rx_result rep2 /\
       total_bytes_written (fs_state (snd (write_run p d n callback ud flags turns w)))
       = u64_wrap (total_bytes_written (fs_state w) + size_wrap (rx_result rep2))) /\
    (issues evs <> 0%nat -> chain_accepted evs = true ->
       closed_files evs
       = if (rx_ret rep1 <? 0) || (rx_result rep1 <? 0) then []
         else [int_wrap (rx_result rep1)]).
Proof.
  intros Hp Hturns Hopen Hwrite. destruct w as [st tr al rx pd].
  cbn in Hp, Hopen. subst pd.
  destruct turns as [|[|[|k]]]; try lia. clear Hturns.
  unfold write_run, fs_write_internal, fs_can_accept_operation.
  unfold_engine. cbn.
  run_engine.
  all: try congruence.
  all: repeat loop_turn.
  all: try congruence.
  all: cbn; rewrite <- ?app_assoc; cbn.
  all: first [ eexists; split; [reflexivity|]
             | exists []; rewrite app_nil_r; split; [reflexivity|] ].
  all: unfold write_succeeded, issues, fs_record_write, fs_record_error;
       rewrite ?end_operation_eq, ?begin_operation_eq; cbn.
  all: simplify_eq.
  all: repeat match goal with
       | H1 : ?t = (?a, ?b), H2 : ?t = (?c, ?e) |- _ =>
           rewrite H1 in H2; injection H2 as <- <-
       end.
  all: split; intros; try discriminate; try congruence.
  all: repeat match goal with
       | H : (_ <? _) = _ |- _ => rewrite H in *
       end; cbn in *.
  all: try discriminate; try reflexivity.
  all: to_arith; split; [assumption | reflexivity].
Qed.

Lemma read_run_facts (p : string) (a : option Arena) (callback : fn_ptr) (ud : Z)
    (turns : nat) (w : world R) (rep1 rep2 : rx_reply) (r1 r2 : R) :
  pending w = [] -> (4 <= turns)%nat ->
  rx_submit (UvFsStat p) (reactor w) = (rep1, r1) ->
  rx_submit (UvFsOpen p UV_FS_O_RDONLY 0) r1 = (rep2, r2) ->
  exists evs : list event,
    trace (snd (read_run p a callback ud turns w)) = trace w ++ evs /\
    (issues evs <> 0%nat -> chain_accepted evs = true ->
       closed_files evs
       = if (rx_ret rep1 <? 0) || (rx_result rep1 <? 0)
            || (ECEWO_FS_MAX_FILE_SIZE <? size_wrap (st_size (rx_statbuf rep1)))
            || (rx_result rep2 <? 0)
         then []
         else [int_wrap (rx_result rep2)]).
Proof.
  intros Hp Hturns Hstat Hopen. destruct w as [st tr al rx pd].
  cbn in Hp, Hstat. subst pd.
  destruct turns as [|[|[|[|k]]]]; try lia. clear Hturns.
  unfold read_run, fs_read_file, fs_can_accept_operation.
  unfold_engine. cbn.
  run_engine.
  all: try congruence.
  all: repeat loop_turn.
  all: try congruence.
  all: cbn; rewrite <- ?app_assoc; cbn.
  all: first [ eexists; split; [reflexivity|]
             | exists []; rewrite app_nil_r; split; [reflexivity|] ].
  all: unfold issues; cbn.
  all: simplify_eq.
  all: repeat match goal with
       | H1 : ?t = (?a, ?b), H2 : ?t = (?c, ?e) |- _ =>
           rewrite H1 in H2; injection H2 as <- <-
       end.
  all: intros; try discriminate; try congruence.
  all: repeat match goal with
       | H : (_ <? _) = _ |- _ => rewrite H in *
       end; cbn in *.
  all: try discriminate; try reflexivity.
Qed.

(** X16.  A write or an append that reports success adds to
    [total_bytes_written] the count libuv reported for the write request,
    which is not negative, whatever the length of the payload: a short
    write is counted with the bytes that were written. *)
Theorem written_bytes_counted (p : string) (d : list byte) (n : Z) (callback : fn_ptr)
    (ud flags : Z) (turns : nat) (w : world R) (rep1 rep2 : rx_reply) (r1 r2 : R) :
  pending w = [] -> (3 <= turns)%nat ->
  rx_submit (UvFsOpen p flags mode_0644) (reactor w) = (rep1, r1) ->
  rx_submit (UvFsWrite (int_wrap (rx_result rep1))
               (take (Z.to_nat (uint_wrap n)) (memcpy (fresh_block n) d n)) 0) r1
    = (rep2, r2) ->
  write_succeeded (new_events (write_run p d n callback ud flags turns) w) = true ->
  0 <= rx_result rep2 /\
  total_bytes_written (fs_state (snd (write_run p d n callback ud flags turns w)))
  = u64_wrap (total_bytes_written (fs_state w) + size_wrap (rx_result rep2)).
Proof.
  intros Hp Hturns Hopen Hwrite Hok.
  destruct (write_run_facts p d n callback ud flags turns w rep1 rep2 r1 r2
              Hp Hturns Hopen Hwrite) as (evs & Htr & Hbytes & _).
  rewrite (new_events_spec _ _ _ Htr) in Hok. exact (Hbytes Hok).
Qed.

(** X17.  The descriptor a write or an append opens is closed, once: when the
    open succeeds and libuv accepts the requests that follow, the one
    descriptor closed is the one the open returned, whether the write
    succeeds or fails; when the open fails nothing is closed. *)
Theorem write_closes_descriptor (p : string) (d : list byte) (n : Z) (callback : fn_ptr)
    (ud flags : Z) (turns : nat) (w : world R) (rep1 : rx_reply) (r1 : R) :
  pending w = [] -> (3 <= turns)%nat ->
  rx_submit (UvFsOpen p flags mode_0644) (reactor w) = (rep1, r1) ->
  issues (new_events (write_run p d n callback ud flags turns) w) <> 0%nat ->
  chain_accepted (new_events (write_run p d n callback ud flags turns) w) = true ->
  closed_files (new_events (write_run p d n callback ud flags turns) w)
  = if (rx_ret rep1 <? 0) || (rx_result rep1 <? 0) then []
    else [int_wrap (rx_result rep1)].
Proof.
  intros Hp Hturns Hopen Hissue Hacc.
  destruct (rx_submit (UvFsWrite (int_wrap (rx_result rep1))
               (take (Z.to_nat (uint_wrap n)) (memcpy (fresh_block n) d n)) 0) r1)
    as [rep2 r2] eqn:Hwrite.
  destruct (write_run_facts p d n callback ud flags turns w rep1 rep2 r1 r2
              Hp Hturns Hopen Hwrite) as (evs & Htr & _ & Hclosed).
  rewrite (new_events_spec _ _ _ Htr) in *. exact (Hclosed Hissue Hacc).
Qed.

(** X18.  The descriptor a read opens is closed, once: when the stat succeeds,
    the size is within the ceiling, the open succeeds and libuv accepts
    the requests that follow, the one descriptor closed is the one the
    open returned, whether or not memory is had and the read succeeds;
    otherwise nothing is closed. *)
Theorem read_closes_descriptor (p : string) (a : option Arena) (callback : fn_ptr)
    (ud : Z) (turns : nat) (w : world R) (rep1 rep2 : rx_reply) (r1 r2 : R) :
  pending w = [] -> (4 <= turns)%nat ->
  rx_submit (UvFsStat p) (reactor w) = (rep1, r1) ->
  rx_submit (UvFsOpen p UV_FS_O_RDONLY 0) r1 = (rep2, r2) ->
  issues (new_events (read_run p a callback ud turns) w) <> 0%nat ->
  chain_accepted (new_events (read_run p a callback ud turns) w) = true ->
  closed_files (new_events (read_run p a callback ud turns) w)
  = if (rx_ret rep1 <? 0) || (rx_result rep1 <? 0)
       || (ECEWO_FS_MAX_FILE_SIZE <? size_wrap (st_size (rx_statbuf rep1)))
       || (rx_result rep2 <? 0)
    then []
    else [int_wrap (rx_result rep2)].
Proof.
  intros Hp Hturns Hstat Hopen Hissue Hacc.
  destruct (read_run_facts p a callback ud turns w rep1 rep2 r1 r2
              Hp Hturns Hstat Hopen) as (evs & Htr & Hclosed).
  rewrite (new_events_spec _ _ _ Htr) in *. exact (Hclosed Hissue Hacc).
Qed.



End Delivered.

Lemma stat_passes_through_witness :
  let w := world0 [reply_stat 2] [] in
  exists (error : option string) (st : option uv_stat_t),
    stat_delivered (new_events (run_call (CallStat (Some "f"%string) (Some 7) 9) 1) w)
    = Some (error, st) /\
    callbacks (new_events (run_call (CallStat (Some "f"%string) (Some 7) 9) 1) w) = 1%nat /\
    error = None /\ st = Some (mk_uv_stat 2 420).
Proof.
  intros w.
  assert (Hslot : active_operations (fs_state w) < ECEWO_FS_MAX_CONCURRENT_OPS)
    by (vm_compute; reflexivity).
  exact (stat_passes_through "f" 7 9 1 w (reply_stat 2) [] eq_refl (le_n 1) eq_refl
           Hslot eq_refl eq_refl eq_refl).
Defined.

Lemma written_bytes_counted_witness :
  let w := world0 [reply 0 3; reply 0 1; reply 0 0] [] in
  total_bytes_written
    (fs_state (snd (write_run "f" ["a"; "b"]%byte 2 7 9 577 3 w))) = 1.
Proof.
  intros w.
  assert (Hok : write_succeeded
                  (new_events (write_run "f" ["a"; "b"]%byte 2 7 9 577 3) w) = true)
    by (vm_compute; reflexivity).
  exact (proj2 (written_bytes_counted "f" ["a"; "b"]%byte 2 7 9 577 3 w
                  (reply 0 3) (reply 0 1) [reply 0 1; reply 0 0] [reply 0 0]
                  eq_refl (le_n 3) eq_refl eq_refl Hok)).
Defined.

Lemma write_closes_descriptor_witness :
  let w := world0 [reply 0 3; reply 0 (-28)] [] in
  closed_files (new_events (write_run "f" ["a"; "b"]%byte 2 7 9 577 3) w) = [3].
Proof.
  intros w.
  assert (Hissue : issues (new_events (write_run "f" ["a"; "b"]%byte 2 7 9 577 3) w)
                   <> 0%nat) by (vm_compute; discriminate).
  assert (Hacc : chain_accepted
                   (new_events (write_run "f" ["a"; "b"]%byte 2 7 9 577 3) w) = true)
    by (vm_compute; reflexivity).
  exact (write_closes_descriptor "f" ["a"; "b"]%byte 2 7 9 577 3 w
           (reply 0 3) [reply 0 (-28)] eq_refl (le_n 3) eq_refl Hissue Hacc).
Defined.

Lemma read_closes_descriptor_witness :
  let '(c, w) := read_two in
  closed_files (new_events (read_run "f" None 7 9 4) w) = [3].
Proof.
  cbv beta iota delta [read_two].
  set (w := world0 [reply_stat 2; reply 0 3; reply_read ["a"; "b"]%byte; reply 0 0] []).
  assert (Hissue : issues (new_events (read_run "f" None 7 9 4) w) <> 0%nat)
    by (vm_compute; discriminate).
  assert (Hacc : chain_accepted (new_events (read_run "f" None 7 9 4) w) = true)
    by (vm_compute; reflexivity).
  exact (read_closes_descriptor "f" None 7 9 4 w (reply_stat 2) (reply 0 3)
           [reply 0 3; reply_read ["a"; "b"]%byte; reply 0 0]
           [reply_read ["a"; "b"]%byte; reply 0 0]
           eq_refl (le_n 4) eq_refl eq_refl Hissue Hacc).
Defined.


(* ===================================================================== *)
(** * The lock outside the life of the module *)
(* ===================================================================== *)

Section OutsideLife.
Context {R : Type} {uv : Libuv R}.

(** X20.  Before [fs_init] and after [fs_cleanup] the entry points keep their
    hands off the registry: a call on a module that is not initialized
    returns -1 and leaves [fs_state] exactly as it was, its mutex, which
    is not yet initialized or already destroyed, included. *)
Theorem uninitialized_registry_untouched (c : fs_call) (w : world R) :
  initialized (fs_state w) = false ->
  fst (enter c w) = -1 /\
  fs_state (snd (enter c w)) = fs_state w.
Proof.
  intros Hi. destruct w as [st tr al rx pd]. cbn in Hi.
  destruct c; unfold_entries; unfold_engine; cbn.
  all: run_engine.
  all: try congruence.
  all: try (rewrite Hi in *; discriminate).
  all: split; reflexivity.
Qed.


End OutsideLife.

Lemma uninitialized_registry_untouched_witness :
  let w := mk_world (fst (fs_cleanup (fun _ x => x) fs_state_busy)) [] []
             ([] : list rx_reply) [(CbStat, fs_request_zero)] in
  mutex (fs_state w) = MutexDestroyed /\
  fst (enter (CallUnlink (Some "f"%string) (Some 7) 9) w) = -1 /\
  fs_state (snd (enter (CallUnlink (Some "f"%string) (Some 7) 9) w)) = fs_state w.
Proof.
  intros w. split; [vm_compute; reflexivity|].
  exact (uninitialized_registry_untouched (CallUnlink (Some "f"%string) (Some 7) 9)
           w eq_refl).
Defined.


